(** * The clickstream transform handler ([lambda/processor.py])

    A shallow embedding of [lambda_handler] and of the Python built-ins it
    calls, followed by the properties of the handler.

    Python values are modelled as the interpreter has them: a [str] is a
    sequence of Unicode code points, [bytes] a sequence of octets, a [dict]
    an insertion-ordered association list.  The services the handler talks
    to (the object store, the gzip and json libraries, the wall clock) are
    the fields of an environment record [Env]; each call to the store is
    recorded in the state the handler threads through.  Line numbers are
    those of [processor.py]. *)

From Stdlib Require Import Ascii String.
From Stdlib Require DecimalString.
From Stdlib Require Import List NArith ZArith Arith Bool Lia.
Import ListNotations.

Set Implicit Arguments.

(** ** Python [str]: sequences of code points *)

Definition str := list N.

(** An ASCII literal of the source, as a [str]. *)
Definition lit (s : string) : str :=
  map N_of_ascii (list_ascii_of_string s).

Fixpoint str_eqb (a b : str) : bool :=
  match a, b with
  | [], [] => true
  | x :: a', y :: b' => N.eqb x y && str_eqb a' b'
  | _, _ => false
  end.

(** [s.startswith(p)] *)
Fixpoint startswith (p s : str) : bool :=
  match p, s with
  | [], _ => true
  | x :: p', y :: s' => N.eqb x y && startswith p' s'
  | _ :: _, [] => false
  end.

(** [s.endswith(p)]: the last [len(p)] code points of [s] are [p]. *)
Definition endswith (p s : str) : bool :=
  (length p <=? length s) && str_eqb (skipn (length s - length p) s) p.

(** [s[n:]] and [s[:-n]] for a non-negative [n]. *)
Definition slice_from (n : nat) (s : str) : str := skipn n s.
Definition slice_drop_last (n : nat) (s : str) : str :=
  firstn (length s - n) s.

(** ** Destination key (lines 78-86) *)

Definition dest_key_of (src_key : str) : str :=
  let dest_key :=
    if startswith (lit "raw/") src_key then
      let rest := slice_from (length (lit "raw/")) src_key in
      lit "processed/" ++ rest
    else
      lit "processed/" ++ src_key in
  if endswith (lit ".gz") dest_key then
    slice_drop_last 3 dest_key ++ lit "json"
  else dest_key.

(** ** Further [str] built-ins used by the handler *)

Definition in_range (lo hi c : N) : bool := N.leb lo c && N.leb c hi.

(** Line boundaries recognised by [str.splitlines]. *)
Definition is_linebreak (c : N) : bool :=
  in_range 0x0A 0x0D c || in_range 0x1C 0x1E c || N.eqb c 0x85 ||
  N.eqb c 0x2028 || N.eqb c 0x2029.

(** White space removed by [str.strip()] ([str.isspace]). *)
Definition is_space (c : N) : bool :=
  in_range 0x09 0x0D c || in_range 0x1C 0x20 c || N.eqb c 0x85 ||
  N.eqb c 0xA0 || N.eqb c 0x1680 || in_range 0x2000 0x200A c ||
  N.eqb c 0x2028 || N.eqb c 0x2029 || N.eqb c 0x202F || N.eqb c 0x205F ||
  N.eqb c 0x3000.

(** [s.splitlines()]: [cur] holds, reversed, the line being read.  A line
    break ends the line; ["\r\n"] counts as one break; a non-empty last line
    needs no break, and no empty line follows a final break. *)
Fixpoint splitlines_from (cur : str) (s : str) : list str :=
  match s with
  | [] => match cur with [] => [] | _ :: _ => [rev cur] end
  | c :: s' =>
      if is_linebreak c then
        rev cur ::
          match s' with
          | c' :: s'' =>
              if N.eqb c 0x0D && N.eqb c' 0x0A then splitlines_from [] s''
              else splitlines_from [] s'
          | [] => splitlines_from [] s'
          end
      else splitlines_from (c :: cur) s'
  end.

Definition splitlines (s : str) : list str := splitlines_from [] s.

Fixpoint lstrip (s : str) : str :=
  match s with
  | c :: s' => if is_space c then lstrip s' else s
  | [] => []
  end.

Definition rstrip (s : str) : str := rev (lstrip (rev s)).

(** [s.strip()] *)
Definition strip (s : str) : str := rstrip (lstrip s).

(** [sep.join(parts)] *)
Fixpoint join (sep : str) (parts : list str) : str :=
  match parts with
  | [] => []
  | [x] => x
  | x :: rest => x ++ sep ++ join sep rest
  end.

(** ** Exceptions and outcomes *)

Inductive exn : Type :=
| AttributeError
| TypeError
| UnicodeDecodeError
| UnicodeEncodeError
| JSONDecodeError   (** [json.JSONDecodeError], the class line 55 names *)
| ValueError        (** a [ValueError] that is not a [JSONDecodeError] *)
| RecursionError
| ServiceError (name : str).  (** raised inside boto3 or gzip, by class name *)

Inductive outcome (A : Type) : Type :=
| Returned (a : A)
| Raised (e : exn).
Arguments Returned {A} a.
Arguments Raised {A} e.

(** ** UTF-8 ([bytes.decode], [str.encode]) *)

Definition bytes := list Byte.byte.

Definition byte_of (n : N) : Byte.byte :=
  match Byte.of_N n with Some b => b | None => Byte.x00 end.

(** What a first octet announces. *)
Inductive lead : Type :=
| LeadChar (c : N)
| LeadSeq (need : nat) (acc lo hi : N)
| LeadBad.

Definition utf8_lead (b : N) : lead :=
  if N.ltb b 0x80 then LeadChar b
  else if N.ltb b 0xC2 then LeadBad
  else if N.ltb b 0xE0 then LeadSeq 1 (b - 0xC0) 0x80 0xBF
  else if N.eqb b 0xE0 then LeadSeq 2 0 0xA0 0xBF
  else if N.eqb b 0xED then LeadSeq 2 0xD 0x80 0x9F
  else if N.ltb b 0xF0 then LeadSeq 2 (b - 0xE0) 0x80 0xBF
  else if N.eqb b 0xF0 then LeadSeq 3 0 0x90 0xBF
  else if N.ltb b 0xF4 then LeadSeq 3 (b - 0xF0) 0x80 0xBF
  else if N.eqb b 0xF4 then LeadSeq 3 4 0x80 0x8F
  else LeadBad.

Definition REPLACEMENT : N := 0xFFFD.

(** The decoder.  [pending] is the sequence being read: octets still
    expected, bits gathered, and the bounds of the next octet.  With
    [replace] an ill-formed subsequence becomes U+FFFD (errors='replace');
    without it the decoder gives up (errors='strict'). *)
Fixpoint utf8_decode (replace : bool) (pending : option (nat * N * N * N))
    (s : list N) : option str :=
  match s with
  | [] =>
      match pending with
      | None => Some []
      | Some _ => if replace then Some [REPLACEMENT] else None
      end
  | b :: s' =>
      let continued :=
        match pending with
        | Some (need, acc, lo, hi) =>
            if in_range lo hi b
            then Some (need, (acc * 64 + (b - 0x80))%N)
            else None
        | None => None
        end in
      match continued with
      | Some (1%nat, c) => option_map (cons c) (utf8_decode replace None s')
      | Some (need, acc) =>
          utf8_decode replace (Some (Nat.pred need, acc, 0x80, 0xBF)%N) s'
      | None =>
          let broken := match pending with Some _ => true | None => false end in
          if broken && negb replace then None else
          option_map (app (if broken then [REPLACEMENT] else []))
            match utf8_lead b with
            | LeadChar c => option_map (cons c) (utf8_decode replace None s')
            | LeadSeq need acc lo hi =>
                utf8_decode replace (Some (need, acc, lo, hi)) s'
            | LeadBad =>
                if replace
                then option_map (cons REPLACEMENT) (utf8_decode replace None s')
                else None
            end
      end
  end.

(** [b.decode("utf-8")] *)
Definition decode_utf8 (b : bytes) : outcome str :=
  match utf8_decode false None (map Byte.to_N b) with
  | Some s => Returned s
  | None => Raised UnicodeDecodeError
  end.

(** [b.decode("utf-8", "replace")], on octets given as numbers. *)
Definition decode_utf8_replace (b : list N) : str :=
  match utf8_decode true None b with Some s => s | None => [] end.

Definition utf8_encode_char (c : N) : option (list N) :=
  if N.ltb c 0x80 then Some [c]
  else if N.ltb c 0x800 then Some [0xC0 + c / 64; 0x80 + c mod 64]%N
  else if in_range 0xD800 0xDFFF c then None
  else if N.ltb c 0x10000 then
    Some [0xE0 + c / 4096; 0x80 + (c / 64) mod 64; 0x80 + c mod 64]%N
  else if N.ltb c 0x110000 then
    Some [0xF0 + c / 262144; 0x80 + (c / 4096) mod 64;
          0x80 + (c / 64) mod 64; 0x80 + c mod 64]%N
  else None.

Fixpoint utf8_encode (s : str) : option (list N) :=
  match s with
  | [] => Some []
  | c :: s' =>
      match utf8_encode_char c, utf8_encode s' with
      | Some bs, Some rest => Some (bs ++ rest)
      | _, _ => None
      end
  end.

(** [s.encode("utf-8")] *)
Definition encode_utf8 (s : str) : outcome bytes :=
  match utf8_encode s with
  | Some bs => Returned (map byte_of bs)
  | None => Raised UnicodeEncodeError
  end.

(** ** [urllib.parse.unquote_plus] *)

Definition hex_value (c : N) : option N :=
  if in_range 48 57 c then Some (c - 48)%N         (* 0-9 *)
  else if in_range 65 70 c then Some (c - 55)%N    (* A-F *)
  else if in_range 97 102 c then Some (c - 87)%N   (* a-f *)
  else None.

Definition PERCENT : N := 37.

(** [unquote_to_bytes] on an ASCII run: ["%XX"] with two hex digits becomes
    the octet; any other ['%'] stays. *)
Fixpoint unquote_to_bytes (s : str) : list N :=
  match s with
  | [] => []
  | c :: s' =>
      if N.eqb c PERCENT then
        match s' with
        | h1 :: h2 :: s'' =>
            match hex_value h1, hex_value h2 with
            | Some a, Some b => (16 * a + b)%N :: unquote_to_bytes s''
            | _, _ => PERCENT :: unquote_to_bytes s'
            end
        | _ => PERCENT :: unquote_to_bytes s'
        end
      else c :: unquote_to_bytes s'
  end.

Definition unquote_run (run : str) : str :=
  decode_utf8_replace (unquote_to_bytes (rev run)).

(** The maximal ASCII runs are unquoted and decoded one by one; code points
    above 127 are kept.  [run] is the ASCII run being read, reversed. *)
Fixpoint unquote_parts (run : str) (s : str) : str :=
  match s with
  | [] => unquote_run run
  | c :: s' =>
      if N.ltb c 128 then unquote_parts (c :: run) s'
      else unquote_run run ++ c :: unquote_parts [] s'
  end.

Definition unquote (s : str) : str :=
  if existsb (N.eqb PERCENT) s then unquote_parts [] s else s.

(** [string.replace('+', ' ')] *)
Definition replace_plus (s : str) : str :=
  map (fun c => if N.eqb c 43 then 32%N else c) s.

Definition unquote_plus (s : str) : str := unquote (replace_plus s).

(** ** Values returned by [json.loads] *)

#[local] Set Warnings "-register-all".
Inductive json : Type :=
| JNone
| JBool (b : bool)
| JInt (z : Z)
| JFloat (repr : str)   (** a float, by its [repr]; never inspected here *)
| JStr (s : str)
| JList (items : list json)
| JDict (entries : list (str * json)).
#[local] Set Warnings "+register-all".

(** A [dict] keeps its entries in insertion order. *)
Definition dict := list (str * json).

Fixpoint dict_get (k : str) (d : dict) : option json :=
  match d with
  | [] => None
  | (k', v) :: d' => if str_eqb k' k then Some v else dict_get k d'
  end.

(** [d.pop(k, None)], the dictionary afterwards.  A dict holds a key once;
    the entry of [k] goes, and so would every entry of [k]. *)
Definition dict_pop (k : str) (d : dict) : dict :=
  filter (fun kv => negb (str_eqb (fst kv) k)) d.

(** [d[k] = v]: an existing key keeps its place, a new key goes last. *)
Fixpoint dict_set (k : str) (v : json) (d : dict) : dict :=
  match d with
  | [] => [(k, v)]
  | (k', v') :: d' =>
      if str_eqb k' k then (k, v) :: d' else (k', v') :: dict_set k v d'
  end.

(** [obj.pop(k, None)] on whatever [json.loads] returned: only a dict has a
    two-argument [pop]. *)
Definition py_pop (obj : json) (k : str) : outcome json :=
  match obj with
  | JDict d => Returned (JDict (dict_pop k d))
  | JList _ => Raised TypeError
  | _ => Raised AttributeError
  end.

(** [obj[k] = v] with a string key. *)
Definition py_setitem (obj : json) (k : str) (v : json) : outcome json :=
  match obj with
  | JDict d => Returned (JDict (dict_set k v d))
  | _ => Raised TypeError
  end.

(** ** [datetime] in UTC and [isoformat] *)

Definition is_leap (y : N) : bool :=
  (N.eqb (y mod 4) 0 && negb (N.eqb (y mod 100) 0)) || N.eqb (y mod 400) 0.

Definition days_in_month (y m : N) : N :=
  if N.eqb m 2 then (if is_leap y then 29 else 28)
  else if N.eqb m 4 || N.eqb m 6 || N.eqb m 9 || N.eqb m 11 then 30
  else 31.

Definition datetime_fields_ok (y mo d h mi s us : N) : bool :=
  in_range 1 9999 y && in_range 1 12 mo && in_range 1 (days_in_month y mo) d &&
  N.leb h 23 && N.leb mi 59 && N.leb s 59 && N.leb us 999999.

(** An aware datetime whose [tzinfo] is [timezone.utc]; the class keeps its
    fields in range. *)
Record datetime : Type := mk_datetime {
  year : N; month : N; day : N;
  hour : N; minute : N; second : N; microsecond : N;
  datetime_ok :
    datetime_fields_ok year month day hour minute second microsecond = true
}.

Definition digit (n : N) : N := (48 + n mod 10)%N.

Definition pad2 (n : N) : str := [digit (n / 10); digit n].
Definition pad4 (n : N) : str :=
  [digit (n / 1000); digit (n / 100); digit (n / 10); digit n].
Definition pad6 (n : N) : str :=
  [digit (n / 100000); digit (n / 10000); digit (n / 1000);
   digit (n / 100); digit (n / 10); digit n].

(** [dt.isoformat()]: the fraction is printed only when it is not zero, and
    the offset of UTC is ["+00:00"]. *)
Definition isoformat (dt : datetime) : str :=
  pad4 (year dt) ++ lit "-" ++ pad2 (month dt) ++ lit "-" ++ pad2 (day dt) ++
  lit "T" ++ pad2 (hour dt) ++ lit ":" ++ pad2 (minute dt) ++ lit ":" ++
  pad2 (second dt) ++
  (if N.eqb (microsecond dt) 0 then [] else lit "." ++ pad6 (microsecond dt)) ++
  lit "+00:00".

(** ** The handler's surroundings *)

(** A call to the storage client, in the order made. *)
Inductive call : Type :=
| GetObject (Bucket Key : str)
| PutObject (Bucket Key : str) (Body : bytes) (ContentType : str).

(** What lies outside the function.  The store answers a call as a function
    of the calls made before it, by the body read or by the exception
    raised; [gzip_read] is [GzipFile(...).read()]; [json_loads] is
    [json.loads], by the value returned or by the exception raised: a
    [JSONDecodeError] on what it does not take for a JSON document, but also
    others, so a [ValueError] on an integer of more digits than [int] converts
    and a [RecursionError] on arrays and objects nested too deep;
    [json_dumps] is [json.dumps], which returns on every value [json.loads]
    gives; [utc_now n] is the reading of the [n]-th call of
    [datetime.now(timezone.utc)], counted from 0. *)
Record Env : Type := {
  s3_get_object : list call -> str -> str -> outcome bytes;
  s3_put_object : list call -> str -> str -> bytes -> str -> outcome unit;
  gzip_read : bytes -> outcome bytes;
  json_loads : str -> outcome json;
  json_dumps : json -> str;
  utc_now : nat -> datetime
}.

Record world : Type := {
  calls : list call;   (** storage calls so far, oldest first *)
  clock_reads : nat    (** readings of the clock so far *)
}.

(** Computations that read the surroundings, may raise, and leave their
    effects behind also when they raise. *)
Definition M (A : Type) : Type := world -> outcome A * world.

Definition ret {A} (a : A) : M A := fun w => (Returned a, w).

Definition bind {A B} (m : M A) (k : A -> M B) : M B :=
  fun w =>
    match m w with
    | (Returned a, w') => k a w'
    | (Raised e, w') => (Raised e, w')
    end.

Definition lift {A} (o : outcome A) : M A := fun w => (o, w).

Declare Scope handler_scope.
Delimit Scope handler_scope with handler.
Notation "x <- m ;; k" := (bind m (fun x => k))
  (at level 61, m at next level, right associativity) : handler_scope.
Notation "m ;;; k" := (bind m (fun _ => k))
  (at level 61, right associativity) : handler_scope.
Open Scope handler_scope.

(** ** The event *)

(** An entry of [event["Records"]]: [record["s3"]["bucket"]["name"]] and
    [record["s3"]["object"]["key"]]. *)
Record s3_record : Type := {
  bucket_name : str;
  object_key : str
}.

(** The event: [Records] is [None] when the key is missing. *)
Record event : Type := {
  Records : option (list s3_record)
}.

(** [event.get("Records", [])] *)
Definition event_records (ev : event) : list s3_record :=
  match Records ev with
  | Some l => l
  | None => []
  end.

(** [{"status": "ok"}] *)
Definition status_ok : json := JDict [(lit "status", JStr (lit "ok"))].

(** ** The handler *)

Section Handler.

Variable env : Env.

(** [s3.get_object(Bucket=b, Key=k)["Body"].read()] *)
Definition get_object (b k : str) : M bytes :=
  fun w =>
    (s3_get_object env (calls w) b k,
     {| calls := calls w ++ [GetObject b k]; clock_reads := clock_reads w |}).

(** [s3.put_object(Bucket=b, Key=k, Body=body, ContentType=ct)] *)
Definition put_object (b k : str) (body : bytes) (ct : str) : M unit :=
  fun w =>
    (s3_put_object env (calls w) b k body ct,
     {| calls := calls w ++ [PutObject b k body ct];
        clock_reads := clock_reads w |}).

(** [datetime.now(timezone.utc)] *)
Definition now : M datetime :=
  fun w =>
    (Returned (utc_now env (clock_reads w)),
     {| calls := calls w; clock_reads := S (clock_reads w) |}).

(** The body of the loop over lines (lines 49-65): [None] where the source
    says [continue], the line to append otherwise.  The [except] clause of
    line 55 names [json.JSONDecodeError] and catches nothing else: any other
    exception of [json.loads] leaves the loop. *)
Definition transform_line (line : str) : M (option str) :=
  let line := strip line in
  match line with
  | [] => ret None
  | _ :: _ =>
      match json_loads env line with
      | Raised JSONDecodeError => ret None
      | Raised e => lift (Raised e)
      | Returned event_obj =>
          event_obj <- lift (py_pop event_obj (lit "user_id")) ;;
          ts <- now ;;
          event_obj <- lift (py_setitem event_obj (lit "processed_ts")
                                        (JStr (isoformat ts))) ;;
          ret (Some (json_dumps env event_obj))
      end
  end.

(** The loop over lines (lines 48-65), from the list gathered so far. *)
Fixpoint transform_lines (lines : list str) (transformed_lines : list str)
    : M (list str) :=
  match lines with
  | [] => ret transformed_lines
  | line :: rest =>
      r <- transform_line line ;;
      transform_lines rest
        (match r with
         | Some out => transformed_lines ++ [out]
         | None => transformed_lines
         end)
  end.

(** The body of the loop over notifications (lines 33-94). *)
Definition process_record (record : s3_record) : M unit :=
  let src_bucket := bucket_name record in
  let src_key := unquote_plus (object_key record) in
  raw_body <- get_object src_bucket src_key ;;
  raw <- lift (gzip_read env raw_body) ;;
  file_content <- lift (decode_utf8 raw) ;;
  transformed_lines <- transform_lines (splitlines file_content) [] ;;
  match transformed_lines with
  | [] => ret tt
  | _ :: _ =>
      transformed_body <- lift (encode_utf8 (join [10%N] transformed_lines)) ;;
      let dest_key := dest_key_of src_key in
      put_object src_bucket dest_key transformed_body (lit "application/json")
  end.

(** The loop over notifications (line 31). *)
Fixpoint for_records (records : list s3_record) : M unit :=
  match records with
  | [] => ret tt
  | record :: rest => process_record record ;;; for_records rest
  end.

(** The handler; its second argument, [context], is not used. *)
Definition lambda_handler (ev : event) : M json :=
  for_records (event_records ev) ;;;
  ret status_ok.

End Handler.

(** ** A small environment to run the handler in

    An in-memory store, a clock, and a decoder and an encoder for the JSON
    documents made of objects, arrays, strings without escapes, integers,
    [true], [false] and [null]; the decoder refuses every other text with
    [JSONDecodeError], and raises on long integers and on deep nesting as
    [json.loads] does.  Objects are held uncompressed: reading the
    gzip stream of a body gives the body.  The properties below are proved
    for every environment; this one runs them on concrete inputs. *)

Module Fixture.

(** ["..."] literals with ['] standing for the double quote. *)
Definition jtext (s : string) : str :=
  map (fun c => if N.eqb c 39 then 34%N else c) (lit s).

Fixpoint skip_ws (s : str) : str :=
  match s with
  | c :: s' =>
      if N.eqb c 32 || N.eqb c 9 || N.eqb c 10 || N.eqb c 13
      then skip_ws s' else s
  | [] => []
  end.

Fixpoint parse_string (acc : str) (s : str) : option (str * str) :=
  match s with
  | [] => None
  | c :: s' =>
      if N.eqb c 34 then Some (rev acc, s')
      else if N.ltb c 32 || N.eqb c 92 then None
      else parse_string (c :: acc) s'
  end.

Fixpoint parse_digits (acc : Z) (s : str) : Z * str :=
  match s with
  | c :: s' =>
      if in_range 48 57 c
      then parse_digits (10 * acc + Z.of_N (c - 48)) s'
      else (acc, s)
  | [] => (acc, [])
  end.

(** The most digits [int] converts (the default of
    [sys.set_int_max_str_digits]), and the most arrays and objects inside one
    another that the decoder enters before the interpreter's recursion limit
    (1000 by default) is reached: what CPython 3.11 leaves to a handler
    called from a script. *)
Definition max_str_digits : nat := 4300.
Definition max_depth : nat := 994.

(** An integer.  A number with a fraction or an exponent is not read. *)
Definition parse_number (s : str) : outcome (json * str) :=
  let '(sign, s1) :=
    match s with
    | c :: r => if N.eqb c 45 then ((-1)%Z, r) else (1%Z, s)
    | [] => (1%Z, s)
    end in
  let whole (n : Z) (r : str) :=
    let digits := List.length s1 - List.length r in
    let int_of :=
      if Nat.ltb max_str_digits digits then Raised ValueError
      else Returned (JInt (sign * n), r) in
    match r with
    | c :: _ =>
        if N.eqb c 46 || N.eqb c 101 || N.eqb c 69 then Raised JSONDecodeError
        else int_of
    | [] => int_of
    end in
  match s1 with
  | c :: r =>
      if N.eqb c 48 then whole 0%Z r
      else if in_range 49 57 c then
        let '(n, r') := parse_digits (Z.of_N (c - 48)) r in whole n r'
      else Raised JSONDecodeError
  | [] => Raised JSONDecodeError
  end.

Definition parse_word (w : string) (v : json) (s : str)
    : outcome (json * str) :=
  if startswith (lit w) s then Returned (v, skipn (List.length (lit w)) s)
  else Raised JSONDecodeError.

(** [depth] is the nesting still allowed: an array or an object met when
    none is left raises [RecursionError], before its content is looked
    at. *)
Fixpoint parse_value (fuel : nat) (depth : nat) (s : str) {struct fuel}
    : outcome (json * str) :=
  match fuel with
  | O => Raised JSONDecodeError
  | S fuel' =>
      match skip_ws s with
      | [] => Raised JSONDecodeError
      | c :: r =>
          if N.eqb c 123 then
            match depth with
            | O => Raised RecursionError
            | S depth' =>
                match skip_ws r with
                | c' :: r' =>
                    if N.eqb c' 125 then Returned (JDict [], r')
                    else parse_members fuel' depth' [] r
                | [] => Raised JSONDecodeError
                end
            end
          else if N.eqb c 91 then
            match depth with
            | O => Raised RecursionError
            | S depth' =>
                match skip_ws r with
                | c' :: r' =>
                    if N.eqb c' 93 then Returned (JList [], r')
                    else parse_items fuel' depth' [] r
                | [] => Raised JSONDecodeError
                end
            end
          else if N.eqb c 34 then
            match parse_string [] r with
            | Some (x, r') => Returned (JStr x, r')
            | None => Raised JSONDecodeError
            end
          else if N.eqb c 116 then parse_word "true" (JBool true) (c :: r)
          else if N.eqb c 102 then parse_word "false" (JBool false) (c :: r)
          else if N.eqb c 110 then parse_word "null" JNone (c :: r)
          else parse_number (c :: r)
      end
  end
with parse_members (fuel : nat) (depth : nat) (acc : dict) (s : str)
    {struct fuel} : outcome (json * str) :=
  match fuel with
  | O => Raised JSONDecodeError
  | S fuel' =>
      match skip_ws s with
      | c :: r =>
          if negb (N.eqb c 34) then Raised JSONDecodeError else
          match parse_string [] r with
          | Some (k, r1) =>
              match skip_ws r1 with
              | c1 :: r2 =>
                  if negb (N.eqb c1 58) then Raised JSONDecodeError else
                  match parse_value fuel' depth r2 with
                  | Returned (v, r3) =>
                      match skip_ws r3 with
                      | c3 :: r4 =>
                          if N.eqb c3 44
                          then parse_members fuel' depth (dict_set k v acc) r4
                          else if N.eqb c3 125
                          then Returned (JDict (dict_set k v acc), r4)
                          else Raised JSONDecodeError
                      | [] => Raised JSONDecodeError
                      end
                  | Raised e => Raised e
                  end
              | [] => Raised JSONDecodeError
              end
          | None => Raised JSONDecodeError
          end
      | [] => Raised JSONDecodeError
      end
  end
with parse_items (fuel : nat) (depth : nat) (acc : list json) (s : str)
    {struct fuel} : outcome (json * str) :=
  match fuel with
  | O => Raised JSONDecodeError
  | S fuel' =>
      match parse_value fuel' depth s with
      | Returned (v, r) =>
          match skip_ws r with
          | c :: r' =>
              if N.eqb c 44 then parse_items fuel' depth (acc ++ [v]) r'
              else if N.eqb c 93 then Returned (JList (acc ++ [v]), r')
              else Raised JSONDecodeError
          | [] => Raised JSONDecodeError
          end
      | Raised e => Raised e
      end
  end.

(** [json.loads]: one value, and nothing but white space after it. *)
Definition loads (s : str) : outcome json :=
  match parse_value (2 * List.length s + 2) max_depth s with
  | Returned (v, r) =>
      match skip_ws r with
      | [] => Returned v
      | _ :: _ => Raised JSONDecodeError
      end
  | Raised e => Raised e
  end.

Definition hex_digit (n : N) : N :=
  let d := (n mod 16)%N in if N.ltb d 10 then (48 + d)%N else (87 + d)%N.

Definition u_escape (c : N) : str :=
  [92; 117; hex_digit (c / 4096); hex_digit (c / 256); hex_digit (c / 16);
   hex_digit c]%N.

Definition escape_char (c : N) : str :=
  if N.eqb c 34 then [92; 34]%N
  else if N.eqb c 92 then [92; 92]%N
  else if N.eqb c 8 then lit "\b"
  else if N.eqb c 12 then lit "\f"
  else if N.eqb c 10 then lit "\n"
  else if N.eqb c 13 then lit "\r"
  else if N.eqb c 9 then lit "\t"
  else if in_range 32 126 c then [c]
  else if N.ltb c 0x10000 then u_escape c
  else
    let n := (c - 0x10000)%N in
    u_escape (0xD800 + (n / 1024) mod 1024) ++ u_escape (0xDC00 + n mod 1024).

Definition quoted (s : str) : str :=
  [34%N] ++ flat_map escape_char s ++ [34%N].

Definition decimal (z : Z) : str :=
  lit (DecimalString.NilZero.string_of_int (Z.to_int z)).

(** [json.dumps] with its default separators. *)
Fixpoint dumps (v : json) : str :=
  match v with
  | JNone => lit "null"
  | JBool true => lit "true"
  | JBool false => lit "false"
  | JInt z => decimal z
  | JFloat r => r
  | JStr s => quoted s
  | JList items => lit "[" ++ join (lit ", ") (map dumps items) ++ lit "]"
  | JDict entries =>
      lit "{" ++
      join (lit ", ")
        (map (fun kv : str * json =>
                let (k, x) := kv in quoted k ++ lit ": " ++ dumps x)
             entries) ++
      lit "}"
  end.

(** The store: the objects it starts with, and the object last put under a
    key since.  A missing key is [NoSuchKey]; writes to a bucket in
    [read_only] are refused. *)
Fixpoint last_put (history : list call) (b k : str) : option bytes :=
  match history with
  | [] => None
  | c :: rest =>
      match last_put rest b k with
      | Some body => Some body
      | None =>
          match c with
          | PutObject b' k' body _ =>
              if str_eqb b' b && str_eqb k' k then Some body else None
          | GetObject _ _ => None
          end
      end
  end.

Fixpoint find_object (objects : list (str * str * bytes)) (b k : str)
    : option bytes :=
  match objects with
  | [] => None
  | (b', k', body) :: rest =>
      if str_eqb b' b && str_eqb k' k then Some body else find_object rest b k
  end.

Definition get (objects : list (str * str * bytes)) (history : list call)
    (b k : str) : outcome bytes :=
  match last_put history b k with
  | Some body => Returned body
  | None =>
      match find_object objects b k with
      | Some body => Returned body
      | None => Raised (ServiceError (lit "NoSuchKey"))
      end
  end.

Definition put (read_only : list str) (history : list call)
    (b k : str) (body : bytes) (ct : str) : outcome unit :=
  if existsb (str_eqb b) read_only
  then Raised (ServiceError (lit "AccessDenied"))
  else Returned tt.

(** A gzip stream is kept as the text it holds, except the stream
    [corrupt], which is not a gzip stream. *)
Definition corrupt : bytes := [Byte.x00].

Definition gunzip (b : bytes) : outcome bytes :=
  match b with
  | [Byte.x00] => Raised (ServiceError (lit "BadGzipFile"))
  | _ => Returned b
  end.

(** The body of an object holding [text]. *)
Definition body_of (text : str) : bytes :=
  match encode_utf8 text with
  | Returned b => b
  | Raised _ => []
  end.

Lemma reading_ok (n : nat) :
  datetime_fields_ok 2025 11 26 12 0 (N.of_nat (n / 4) mod 60)
                     (N.of_nat (n mod 4) * 250000) = true.
Proof.
  unfold datetime_fields_ok. cbn [andb in_range days_in_month].
  assert (H1 : (N.of_nat (n / 4) mod 60 < 60)%N) by (apply N.mod_lt; discriminate).
  assert (H2 : (n mod 4 < 4)%nat) by (apply Nat.mod_upper_bound; discriminate).
  replace (N.leb (N.of_nat (n / 4) mod 60) 59) with true
    by (symmetry; apply N.leb_le; lia).
  replace (N.leb (N.of_nat (n mod 4) * 250000) 999999) with true
    by (symmetry; apply N.leb_le; lia).
  reflexivity.
Qed.

(** The clock: 2025-11-26 12:00:00 UTC, a quarter of a second later at each
    reading. *)
Definition clock (n : nat) : datetime :=
  mk_datetime 2025 11 26 12 0 (N.of_nat (n / 4) mod 60)
              (N.of_nat (n mod 4) * 250000) (reading_ok n).

Definition env (objects : list (str * str * bytes)) (read_only : list str)
    : Env :=
  {| s3_get_object := get objects;
     s3_put_object := put read_only;
     gzip_read := gunzip;
     json_loads := loads;
     json_dumps := dumps;
     utc_now := clock |}.

Definition start : world := {| calls := []; clock_reads := 0 |}.

(** Objects of a bucket and notifications of them. *)

Definition nl : str := [10%N].

Definition bucket : str := lit "clickstream".

(** Two records, both with a [user_id]. *)
Definition two_clicks : str :=
  jtext "{'user_id':'u1','x':1}" ++ nl ++
  jtext "{'user_id':'u2','x':2}" ++ nl.

(** A malformed line, an empty line, a record. *)
Definition mixed : str :=
  jtext "not json" ++ nl ++ nl ++ jtext "{'a':1}" ++ nl.

(** No record at all. *)
Definition nothing_valid : str :=
  jtext "not json" ++ nl ++ lit "   " ++ nl ++ jtext "{'a':" ++ nl.

(** A number, then a record. *)
Definition number_first : str :=
  jtext "7" ++ nl ++ jtext "{'a':1}" ++ nl.

Definition objects : list (str * str * bytes) :=
  [(bucket, lit "raw/year=2025/month=11/day=26/file.gz", body_of two_clicks);
   (bucket, lit "other/path/data.gz", body_of mixed);
   (bucket, lit "raw/empty.gz", body_of nothing_valid);
   (bucket, lit "raw/a b.gz", body_of number_first);
   (bucket, lit "raw/corrupt.gz", corrupt)].

Definition notification (key : string) : s3_record :=
  {| bucket_name := bucket; object_key := lit key |}.

Definition file_gz : s3_record :=
  notification "raw/year%3D2025/month%3D11/day%3D26/file.gz".

Definition demo : Env := env objects [].

(** The same store, refusing writes to the bucket. *)
Definition demo_read_only : Env := env objects [bucket].

(** A line holding a record, and the record. *)
Definition click_line : str := jtext "  {'user_id':'u1','x':1} ".

Definition click : dict :=
  [(lit "user_id", JStr (lit "u1")); (lit "x", JInt 1)].

(** What the handler puts for [file_gz] from the start. *)
Definition file_json : str :=
  jtext "{'x': 1, 'processed_ts': '2025-11-26T12:00:00+00:00'}" ++ nl ++
  jtext "{'x': 2, 'processed_ts': '2025-11-26T12:00:00.250000+00:00'}".

(** Texts on which [json.loads] raises what line 55 does not catch. *)

(** [n] times the digit 9. *)
Definition nines (n : nat) : str := repeat 57%N n.

(** A record whose number has 4301 digits. *)
Definition long_line : str := jtext "{'n':" ++ nines 4301 ++ jtext "}".

(** A record, a record with such a number, a record. *)
Definition long_number : str :=
  jtext "{'a':1}" ++ nl ++ long_line ++ nl ++ jtext "{'b':2}" ++ nl.

(** An array that is not closed, of a number of 4301 digits. *)
Definition unclosed_line : str := lit "[" ++ nines 4301.

(** That line and nothing else. *)
Definition unclosed : str := unclosed_line ++ nl.

(** A store with these objects, and the object of [file_gz]. *)
Definition overlong : Env :=
  env [(bucket, lit "raw/long.gz", body_of long_number);
       (bucket, lit "raw/unclosed.gz", body_of unclosed);
       (bucket, lit "raw/year=2025/month=11/day=26/file.gz",
        body_of two_clicks)] [].

End Fixture.

(** ** Vocabulary of the specification *)

(** *** ISO-8601 timestamps in UTC

    [YYYY-MM-DDThh:mm:ss], an optional fraction of a second, and the zone
    written [+00:00] or [Z]; the date is a date of the calendar. *)

Definition is_digit (c : N) : bool := in_range 48 57 c.

Fixpoint read_digits (k : nat) (acc : N) (s : str) : option (N * str) :=
  match k with
  | O => Some (acc, s)
  | S k' =>
      match s with
      | c :: s' =>
          if is_digit c then read_digits k' (10 * acc + (c - 48)) s' else None
      | [] => None
      end
  end.

Definition expect (c : N) (s : str) : option str :=
  match s with
  | c' :: s' => if N.eqb c c' then Some s' else None
  | [] => None
  end.

Definition is_utc_zone (s : str) : bool :=
  str_eqb s (lit "+00:00") || str_eqb s (lit "Z").

Fixpoint skip_digits (s : str) : str :=
  match s with
  | c :: s' => if is_digit c then skip_digits s' else s
  | [] => []
  end.

Definition is_fraction_then_zone (s : str) : bool :=
  match s with
  | c :: s' =>
      if N.eqb c 46 then
        match s' with
        | c1 :: s'' => is_digit c1 && is_utc_zone (skip_digits s'')
        | [] => false
        end
      else is_utc_zone s
  | [] => false
  end.

Definition and_then {A B} (o : option A) (k : A -> option B) : option B :=
  match o with
  | Some a => k a
  | None => None
  end.

Definition is_iso8601_utc (s : str) : bool :=
  match
    and_then (read_digits 4 0 s) (fun '(y, s) =>
    and_then (expect 45 s) (fun s =>
    and_then (read_digits 2 0 s) (fun '(mo, s) =>
    and_then (expect 45 s) (fun s =>
    and_then (read_digits 2 0 s) (fun '(d, s) =>
    and_then (expect 84 s) (fun s =>
    and_then (read_digits 2 0 s) (fun '(h, s) =>
    and_then (expect 58 s) (fun s =>
    and_then (read_digits 2 0 s) (fun '(mi, s) =>
    and_then (expect 58 s) (fun s =>
    and_then (read_digits 2 0 s) (fun '(sec, s) =>
      Some (in_range 1 12 mo && in_range 1 (days_in_month y mo) d &&
            N.leb h 23 && N.leb mi 59 && N.leb sec 59 &&
            is_fraction_then_zone s))))))))))))
  with
  | Some b => b
  | None => false
  end.

(** *** The decoder's state

    In a sequence being read, the next octet is looked for at 0x80 or
    above. *)
Definition pending_ok (p : option (nat * N * N * N)) : Prop :=
  match p with
  | Some (_, _, lo, _) => (0x80 <= lo)%N
  | None => True
  end.

(** *** Percent-encoded keys

    [encodes bs q]: the text [q] is a percent-encoding of the octets [bs].
    An ASCII octet other than ['%'] and ['+'] may stand for itself, a space
    may be written ['+'], and any octet may be written ['%'] and two hex
    digits of either case. *)
Inductive encodes : list N -> str -> Prop :=
| encodes_nil : encodes [] []
| encodes_literal (b : N) (bs : list N) (q : str) :
    (b < 128)%N -> b <> PERCENT -> b <> 43%N ->
    encodes bs q -> encodes (b :: bs) (b :: q)
| encodes_plus (bs : list N) (q : str) :
    encodes bs q -> encodes (32%N :: bs) (43%N :: q)
| encodes_escape (h1 h2 u v : N) (bs : list N) (q : str) :
    hex_value h1 = Some u -> hex_value h2 = Some v ->
    encodes bs q -> encodes ((16 * u + v)%N :: bs) (PERCENT :: h1 :: h2 :: q).

(** [q] is a percent-encoding of the UTF-8 form of [key]. *)
Definition quoted_key (key q : str) : Prop :=
  exists bs, utf8_encode key = Some bs /\ encodes bs q.

(** *** Lines of an input object *)

Section Vocabulary.

Variable env : Env.

(** Empty, or white space only: nothing is left after trimming. *)
Definition blank (line : str) : Prop := strip line = [].

(** Not blank, and [json.loads] raises [JSONDecodeError]. *)
Definition malformed (line : str) : Prop :=
  strip line <> [] /\ json_loads env (strip line) = Raised JSONDecodeError.

(** Not blank, and [json.loads] raises [e], which is not a
    [JSONDecodeError]. *)
Definition load_error (line : str) (e : exn) : Prop :=
  strip line <> [] /\ json_loads env (strip line) = Raised e /\
  e <> JSONDecodeError.


(** Not blank, and [json.loads] returns [v]. *)
Definition parses_to (line : str) (v : json) : Prop :=
  strip line <> [] /\ json_loads env (strip line) = Returned v.

Definition is_dict (v : json) : bool :=
  match v with JDict _ => true | _ => false end.

(** The object a line holds, if it holds one. *)
Definition object_of (line : str) : option dict :=
  match strip line with
  | [] => None
  | _ :: _ =>
      match json_loads env (strip line) with
      | Returned (JDict d) => Some d
      | _ => None
      end
  end.

(** The objects of the lines, in the order of the lines. *)
Fixpoint objects_of (lines : list str) : list dict :=
  match lines with
  | [] => []
  | line :: rest =>
      match object_of line with
      | Some d => d :: objects_of rest
      | None => objects_of rest
      end
  end.

(** Every line is blank, malformed or an object. *)
Definition only_objects (lines : list str) : Prop :=
  Forall (fun line => blank line \/ malformed line \/
                      exists d, parses_to line (JDict d)) lines.

(** The record made of object [d] at clock reading [t], as a line. *)
Definition transformed (t : nat) (d : dict) : str :=
  json_dumps env
    (JDict (dict_set (lit "processed_ts") (JStr (isoformat (utc_now env t)))
                     (dict_pop (lit "user_id") d))).

(** The keys read from the store, oldest first. *)
Fixpoint reads (cs : list call) : list (str * str) :=
  match cs with
  | [] => []
  | GetObject b k :: rest => (b, k) :: reads rest
  | PutObject _ _ _ _ :: rest => reads rest
  end.

Fixpoint writes (cs : list call) : list (str * str * bytes * str) :=
  match cs with
  | [] => []
  | GetObject _ _ :: rest => writes rest
  | PutObject b k body ct :: rest => (b, k, body, ct) :: writes rest
  end.

(** What notification [r] reads. *)
Definition source_of (r : s3_record) : str * str :=
  (bucket_name r, unquote_plus (object_key r)).

(** The world once [r]'s object has been requested. *)
Definition requested (r : s3_record) (w : world) : world :=
  {| calls := calls w ++ [GetObject (bucket_name r)
                                    (unquote_plus (object_key r))];
     clock_reads := clock_reads w |}.

(** The world once the clock has been read once more. *)
Definition ticked (w : world) : world :=
  {| calls := calls w; clock_reads := S (clock_reads w) |}.

(** The records made of the objects [ds], the first at clock reading [t] and
    each next one at the next reading, as lines. *)
Fixpoint stamped (t : nat) (ds : list dict) : list str :=
  match ds with
  | [] => []
  | d :: rest => transformed t d :: stamped (S t) rest
  end.

(** What [pop("user_id", None)] raises on a value that is not a dict. *)
Definition not_a_dict_error (v : json) : exn :=
  match v with
  | JList _ => TypeError
  | _ => AttributeError
  end.

(** The failures of one notification that nothing catches: of the read, of
    the decompression, of the decoding, of the encoding, of the write. *)
Inductive fails_with (r : s3_record) (w : world) (e : exn) : Prop :=
| read_fails :
    s3_get_object env (calls w) (bucket_name r)
                  (unquote_plus (object_key r)) = Raised e ->
    fails_with r w e
| decompression_fails raw_body :
    s3_get_object env (calls w) (bucket_name r)
                  (unquote_plus (object_key r)) = Returned raw_body ->
    gzip_read env raw_body = Raised e ->
    fails_with r w e
| decoding_fails raw_body raw :
    s3_get_object env (calls w) (bucket_name r)
                  (unquote_plus (object_key r)) = Returned raw_body ->
    gzip_read env raw_body = Returned raw ->
    decode_utf8 raw = Raised e ->
    fails_with r w e
| encoding_fails raw_body raw text out outs w' :
    s3_get_object env (calls w) (bucket_name r)
                  (unquote_plus (object_key r)) = Returned raw_body ->
    gzip_read env raw_body = Returned raw ->
    decode_utf8 raw = Returned text ->
    transform_lines env (splitlines text) [] (requested r w)
      = (Returned (out :: outs), w') ->
    encode_utf8 (join [10%N] (out :: outs)) = Raised e ->
    fails_with r w e
| write_fails raw_body raw text out outs w' body :
    s3_get_object env (calls w) (bucket_name r)
                  (unquote_plus (object_key r)) = Returned raw_body ->
    gzip_read env raw_body = Returned raw ->
    decode_utf8 raw = Returned text ->
    transform_lines env (splitlines text) [] (requested r w)
      = (Returned (out :: outs), w') ->
    encode_utf8 (join [10%N] (out :: outs)) = Returned body ->
    s3_put_object env (calls w') (bucket_name r)
                  (dest_key_of (unquote_plus (object_key r))) body
                  (lit "application/json") = Raised e ->
    fails_with r w e.

End Vocabulary.

(** *** Writes and their notifications *)

(** [subseq s l]: [s] is [l] with some of its elements left out. *)
Inductive subseq {A : Type} : list A -> list A -> Prop :=
| subseq_nil : subseq [] []
| subseq_take (x : A) (s l : list A) : subseq s l -> subseq (x :: s) (x :: l)
| subseq_skip (x : A) (s l : list A) : subseq s l -> subseq s (x :: l).

(** Where notification [r] puts its object, if it puts one. *)
Definition destination_of (r : s3_record) : str * str :=
  (bucket_name r, dest_key_of (unquote_plus (object_key r))).

(** Where a write went. *)
Definition target (x : str * str * bytes * str) : str * str :=
  let '(b, k, _, _) := x in (b, k).

Definition content_type (x : str * str * bytes * str) : str :=
  let '(_, _, _, ct) := x in ct.

Definition body_written (x : str * str * bytes * str) : bytes :=
  let '(_, _, body, _) := x in body.

(** The key moved under ["processed/"], before its suffix is looked at
    (lines 78-82). *)
Definition relocated (src_key : str) : str :=
  if startswith (lit "raw/") src_key
  then lit "processed/" ++ slice_from (List.length (lit "raw/")) src_key
  else lit "processed/" ++ src_key.

(** The names of the fields of a record, in their order. *)
Definition keys (d : dict) : list str := map fst d.

(** * Properties *)

(** ** The built-ins at work *)

Example splitlines_breaks :
  splitlines (lit "a" ++ [10; 10]%N ++ lit "b" ++ [13; 10]%N ++ lit "c"
              ++ [10]%N)
    = [lit "a"; []; lit "b"; lit "c"] /\
  splitlines [] = [] /\
  splitlines [10%N] = [[]] /\
  splitlines (lit "a" ++ [0x2028]%N ++ lit "b") = [lit "a"; lit "b"].
Proof. repeat split; reflexivity. Qed.

Example strip_both_ends :
  strip ([32; 9]%N ++ lit "a b" ++ [32; 13; 10; 0xA0]%N) = lit "a b" /\
  strip [32; 9; 10]%N = [].
Proof. split; reflexivity. Qed.

Example unquote_plus_forms :
  unquote_plus (lit "a+b%2Bc%3d") = lit "a b+c=" /\
  unquote_plus (lit "%E2%82%AC") = [0x20AC%N] /\
  unquote_plus (lit "%zz%4%") = lit "%zz%4%" /\
  unquote_plus (lit "%E2%82") = [REPLACEMENT] /\
  unquote_plus (lit "%C0%AF") = [REPLACEMENT; REPLACEMENT].
Proof. repeat split; reflexivity. Qed.

Example utf8_forms :
  encode_utf8 [0x41; 0xE9; 0x20AC; 0x1F600]%N
    = Returned (map byte_of [0x41; 0xC3; 0xA9; 0xE2; 0x82; 0xAC;
                             0xF0; 0x9F; 0x98; 0x80]%N) /\
  decode_utf8 (map byte_of [0x41; 0xC3; 0xA9; 0xE2; 0x82; 0xAC;
                            0xF0; 0x9F; 0x98; 0x80]%N)
    = Returned [0x41; 0xE9; 0x20AC; 0x1F600]%N /\
  decode_utf8 (map byte_of [0xE2; 0x82]%N) = Raised UnicodeDecodeError /\
  encode_utf8 [0xD800%N] = Raised UnicodeEncodeError.
Proof. repeat split; reflexivity. Qed.

Example isoformat_forms :
  isoformat (Fixture.clock 0) = lit "2025-11-26T12:00:00+00:00" /\
  isoformat (Fixture.clock 5) = lit "2025-11-26T12:00:01.250000+00:00".
Proof. split; reflexivity. Qed.

(** ** Strings *)

Lemma str_eqb_eq (a b : str) : str_eqb a b = true <-> a = b.
Proof.
  revert b; induction a as [|x a IH]; intros [|y b]; cbn; split;
    try congruence; try reflexivity.
  - intros H. apply andb_true_iff in H as [Hx Hab].
    apply N.eqb_eq in Hx. apply IH in Hab. congruence.
  - intros H. injection H as -> ->.
    rewrite N.eqb_refl. cbn. now apply IH.
Qed.

Lemma str_eqb_refl (a : str) : str_eqb a a = true.
Proof. now apply str_eqb_eq. Qed.

Lemma str_eqb_neq (a b : str) : str_eqb a b = false <-> a <> b.
Proof.
  split.
  - intros H E. apply str_eqb_eq in E. congruence.
  - intros H. destruct (str_eqb a b) eqn:E; [|reflexivity].
    apply str_eqb_eq in E. contradiction.
Qed.

Lemma startswith_iff (p s : str) :
  startswith p s = true <-> exists rest, s = p ++ rest.
Proof.
  revert s; induction p as [|x p IH]; intros s; cbn.
  - split; [intros _; now exists s | reflexivity].
  - destruct s as [|y s]; split.
    + discriminate.
    + intros [rest H]; discriminate.
    + intros H. apply andb_true_iff in H as [Hx Hp].
      apply N.eqb_eq in Hx. apply IH in Hp as [rest ->].
      exists rest. now subst.
    + intros [rest H]. injection H as -> ->.
      rewrite N.eqb_refl. cbn. apply IH. now exists rest.
Qed.

Lemma endswith_iff (p s : str) :
  endswith p s = true <-> exists stem, s = stem ++ p.
Proof.
  unfold endswith. split.
  - intros H. apply andb_true_iff in H as [Hlen Heq].
    apply str_eqb_eq in Heq.
    exists (firstn (List.length s - List.length p) s).
    transitivity (firstn (List.length s - List.length p) s ++
                  skipn (List.length s - List.length p) s).
    + symmetry. apply firstn_skipn.
    + now rewrite Heq.
  - intros [stem ->]. rewrite length_app.
    replace (List.length stem + List.length p - List.length p)
      with (List.length stem) by lia.
    apply andb_true_iff. split.
    + apply Nat.leb_le. lia.
    + rewrite skipn_app, skipn_all, Nat.sub_diag. cbn. apply str_eqb_refl.
Qed.

Lemma slice_drop_last_app (stem p : str) :
  slice_drop_last (List.length p) (stem ++ p) = stem.
Proof.
  unfold slice_drop_last. rewrite length_app.
  replace (List.length stem + List.length p - List.length p)
    with (List.length stem) by lia.
  rewrite firstn_app, firstn_all, Nat.sub_diag. cbn. apply app_nil_r.
Qed.

(** ** The destination key *)

(** C5. The destination key of a decoded source key: a leading ["raw/"] is
    replaced by ["processed/"] and what follows it is kept, any other key
    gets ["processed/"] in front; then a final [".gz"] is cut off and
    ["json"] put in its place, with no dot.  The two keys of the
    specification map as it says. *)
Theorem dest_key_mapping :
  (forall src_key, exists mid,
      ((exists rest, src_key = lit "raw/" ++ rest /\
                     mid = lit "processed/" ++ rest) \/
       ((forall rest, src_key <> lit "raw/" ++ rest) /\
        mid = lit "processed/" ++ src_key)) /\
      ((exists stem, mid = stem ++ lit ".gz" /\
                     dest_key_of src_key = stem ++ lit "json") \/
       ((forall stem, mid <> stem ++ lit ".gz") /\
        dest_key_of src_key = mid))) /\
  dest_key_of (lit "raw/year=2025/month=11/day=26/file.gz")
    = lit "processed/year=2025/month=11/day=26/filejson" /\
  dest_key_of (lit "other/path/data.gz") = lit "processed/other/path/datajson".
Proof.
  split; [|split; reflexivity].
  intros src_key. unfold dest_key_of.
  set (mid := if startswith (lit "raw/") src_key
              then lit "processed/" ++
                   slice_from (List.length (lit "raw/")) src_key
              else lit "processed/" ++ src_key).
  exists mid. split.
  - subst mid. destruct (startswith (lit "raw/") src_key) eqn:E.
    + left. apply startswith_iff in E as [rest ->]. exists rest.
      split; reflexivity.
    + right. split; [|reflexivity].
      intros rest ->.
      assert (startswith (lit "raw/") (lit "raw/" ++ rest) = true)
        by (apply startswith_iff; now exists rest).
      congruence.
  - destruct (endswith (lit ".gz") mid) eqn:E.
    + left. apply endswith_iff in E as [stem Hs]. exists stem.
      split; [exact Hs|]. rewrite Hs.
      change 3%nat with (List.length (lit ".gz")).
      now rewrite slice_drop_last_app.
    + right. split; [|reflexivity].
      intros stem Hs.
      assert (endswith (lit ".gz") mid = true)
        by (apply endswith_iff; now exists stem).
      congruence.
Qed.

(** ** Dictionaries *)

Lemma dict_get_pop_same (k : str) (d : dict) :
  dict_get k (dict_pop k d) = None.
Proof.
  unfold dict_pop.
  induction d as [|[k' v] d IH]; cbn; [reflexivity|].
  destruct (str_eqb k' k) eqn:E; cbn; [exact IH|].
  now rewrite E.
Qed.

Lemma dict_get_pop_other (k k' : str) (d : dict) :
  k' <> k -> dict_get k' (dict_pop k d) = dict_get k' d.
Proof.
  intros Hne. unfold dict_pop.
  induction d as [|[k0 v] d IH]; cbn; [reflexivity|].
  destruct (str_eqb k0 k) eqn:E; cbn.
  - apply str_eqb_eq in E. subst k0.
    apply not_eq_sym, str_eqb_neq in Hne. now rewrite Hne.
  - now rewrite IH.
Qed.

Lemma dict_pop_absent (k : str) (d : dict) :
  dict_get k d = None -> dict_pop k d = d.
Proof.
  unfold dict_pop.
  induction d as [|[k' v] d IH]; cbn; [reflexivity|].
  destruct (str_eqb k' k); cbn; [discriminate|].
  intros H. now rewrite IH.
Qed.

Lemma dict_get_set_same (k : str) (v : json) (d : dict) :
  dict_get k (dict_set k v d) = Some v.
Proof.
  induction d as [|[k' v'] d IH]; cbn.
  - now rewrite str_eqb_refl.
  - destruct (str_eqb k' k) eqn:E; cbn.
    + now rewrite str_eqb_refl.
    + now rewrite E.
Qed.

Lemma dict_get_set_other (k k' : str) (v : json) (d : dict) :
  k' <> k -> dict_get k' (dict_set k v d) = dict_get k' d.
Proof.
  intros Hne. apply str_eqb_neq in Hne.
  induction d as [|[k0 v0] d IH]; cbn.
  - rewrite str_eqb_neq in Hne. apply not_eq_sym, str_eqb_neq in Hne.
    now rewrite Hne.
  - destruct (str_eqb k0 k) eqn:E; cbn.
    + apply str_eqb_eq in E. subst k0.
      rewrite str_eqb_neq in Hne. apply not_eq_sym, str_eqb_neq in Hne.
      now rewrite Hne.
    + now rewrite IH.
Qed.

(** ** Timestamps *)

(** Quotients and remainders, once their equations are in the context, are
    numbers like any other. *)
Ltac forget_divmod :=
  repeat match goal with
  | |- context [N.modulo ?a ?b] =>
      let m := fresh "m" in let E := fresh "E" in
      remember (N.modulo a b) as m eqn:E; clear E
  | |- context [N.div ?a ?b] =>
      let q := fresh "q" in let E := fresh "E" in
      remember (N.div a b) as q eqn:E; clear E
  | H : context [N.modulo ?a ?b] |- _ =>
      let m := fresh "m" in let E := fresh "E" in
      remember (N.modulo a b) as m eqn:E; clear E
  | H : context [N.div ?a ?b] |- _ =>
      let q := fresh "q" in let E := fresh "E" in
      remember (N.div a b) as q eqn:E; clear E
  end.

Lemma is_digit_digit (n : N) : is_digit (digit n) = true.
Proof.
  unfold is_digit, in_range, digit.
  pose proof (N.mod_lt n 10 ltac:(discriminate)).
  apply andb_true_iff; split; apply N.leb_le; forget_divmod; lia.
Qed.

Lemma digit_value (n : N) : (digit n - 48 = n mod 10)%N.
Proof. unfold digit. forget_divmod. lia. Qed.

Lemma read_digits_pad2 (n : N) (rest : str) :
  (n < 100)%N -> read_digits 2 0 (pad2 n ++ rest) = Some (n, rest).
Proof.
  intros Hn. unfold pad2. cbn [app read_digits].
  rewrite !is_digit_digit, !digit_value. f_equal. f_equal.
  pose proof (N.div_mod n 10 ltac:(discriminate)).
  assert (n / 10 < 10)%N by (apply N.Div0.div_lt_upper_bound; lia).
  rewrite (N.mod_small (n / 10) 10) by assumption.
  forget_divmod. lia.
Qed.

Lemma read_digits_pad4 (n : N) (rest : str) :
  (n < 10000)%N -> read_digits 4 0 (pad4 n ++ rest) = Some (n, rest).
Proof.
  intros Hn. unfold pad4. cbn [app read_digits].
  rewrite !is_digit_digit, !digit_value. f_equal. f_equal.
  replace (n / 100)%N with (n / 10 / 10)%N
    by (rewrite N.Div0.div_div; reflexivity).
  replace (n / 1000)%N with (n / 10 / 10 / 10)%N
    by (rewrite !N.Div0.div_div; reflexivity).
  pose proof (N.div_mod n 10 ltac:(discriminate)).
  pose proof (N.div_mod (n / 10) 10 ltac:(discriminate)).
  pose proof (N.div_mod (n / 10 / 10) 10 ltac:(discriminate)).
  assert (n / 10 / 10 / 10 < 10)%N
    by (rewrite !N.Div0.div_div; apply N.Div0.div_lt_upper_bound; lia).
  rewrite (N.mod_small (n / 10 / 10 / 10) 10) by assumption.
  forget_divmod. lia.
Qed.

Lemma expect_cons (c : N) (rest : str) : expect c (c :: rest) = Some rest.
Proof. cbn. now rewrite N.eqb_refl. Qed.

Lemma fraction_then_zone_ok (us : N) :
  is_fraction_then_zone
    ((if N.eqb us 0 then [] else lit "." ++ pad6 us) ++ lit "+00:00") = true.
Proof.
  destruct (N.eqb us 0); [reflexivity|].
  unfold pad6. change (lit ".") with [46%N].
  cbn [app is_fraction_then_zone]. rewrite N.eqb_refl.
  cbn [skip_digits]. rewrite !is_digit_digit. reflexivity.
Qed.

(** What [isoformat] prints is a timestamp in the sense above. *)
Lemma isoformat_is_iso8601 (dt : datetime) :
  is_iso8601_utc (isoformat dt) = true.
Proof.
  destruct dt as [y mo d h mi s us ok].
  unfold isoformat. cbn [year month day hour minute second microsecond].
  unfold datetime_fields_ok, in_range in ok.
  repeat match goal with
         | H : _ && _ = true |- _ => apply andb_true_iff in H as [? ?]
         end.
  repeat match goal with
         | H : N.leb _ _ = true |- _ => apply N.leb_le in H
         end.
  assert (Hd31 : (days_in_month y mo <= 31)%N).
  { unfold days_in_month.
    destruct (N.eqb mo 2); [destruct (is_leap y); discriminate|].
    destruct (N.eqb mo 4 || N.eqb mo 6 || N.eqb mo 9 || N.eqb mo 11);
      discriminate. }
  unfold is_iso8601_utc.
  change (lit "-") with [45%N]. change (lit "T") with [84%N].
  change (lit ":") with [58%N].
  rewrite read_digits_pad4 by lia. cbn [and_then app]. rewrite expect_cons.
  cbn [and_then]. rewrite read_digits_pad2 by lia. cbn [and_then app].
  rewrite expect_cons. cbn [and_then].
  rewrite read_digits_pad2 by lia. cbn [and_then app].
  rewrite expect_cons. cbn [and_then].
  rewrite read_digits_pad2 by lia. cbn [and_then app].
  rewrite expect_cons. cbn [and_then].
  rewrite read_digits_pad2 by lia. cbn [and_then app].
  rewrite expect_cons. cbn [and_then].
  rewrite read_digits_pad2 by lia. cbn [and_then].
  rewrite fraction_then_zone_ok. unfold in_range.
  repeat (apply andb_true_iff; split); try reflexivity; apply N.leb_le; lia.
Qed.

(** ** One line *)

Section Lines.

Variable env : Env.

Lemma exn_decode_error_dec (e : exn) :
  e = JSONDecodeError \/ e <> JSONDecodeError.
Proof. destruct e; (now left) || (right; discriminate). Qed.

Lemma line_cases (line : str) :
  blank line \/ malformed env line \/
  (exists d, parses_to env line (JDict d)) \/
  (exists v, parses_to env line v /\ is_dict v = false) \/
  (exists e, load_error env line e).
Proof.
  unfold blank, malformed, parses_to, load_error.
  destruct (strip line) as [|c s] eqn:Es; [now left|right].
  destruct (json_loads env (c :: s)) as [v|e] eqn:Ev.
  - right. destruct v;
      try (right; left; eexists; split; [split; [discriminate|reflexivity]
                                        |reflexivity]).
    left. eexists. split; [discriminate|reflexivity].
  - destruct (exn_decode_error_dec e) as [->|Hne].
    + left. split; [discriminate|reflexivity].
    + right. right. right. exists e. repeat split; [discriminate|assumption].
Qed.

Lemma transform_line_blank (line : str) (w : world) :
  blank line -> transform_line env line w = (Returned None, w).
Proof. unfold blank, transform_line. now intros ->. Qed.

Lemma transform_line_malformed (line : str) (w : world) :
  malformed env line -> transform_line env line w = (Returned None, w).
Proof.
  unfold malformed, transform_line. intros [Hs Hj].
  destruct (strip line); [contradiction|]. now rewrite Hj.
Qed.

Lemma transform_line_object (line : str) (d : dict) (w : world) :
  parses_to env line (JDict d) ->
  transform_line env line w
    = (Returned (Some (transformed env (clock_reads w) d)), ticked w).
Proof.
  unfold parses_to, transform_line. intros [Hs Hj].
  destruct (strip line); [contradiction|]. now rewrite Hj.
Qed.

Lemma transform_line_other (line : str) (v : json) (w : world) :
  parses_to env line v -> is_dict v = false ->
  transform_line env line w = (Raised (not_a_dict_error v), w).
Proof.
  unfold parses_to, transform_line. intros [Hs Hj] Hv.
  destruct (strip line); [contradiction|]. rewrite Hj.
  destruct v; try discriminate; reflexivity.
Qed.

(** A line on which [json.loads] raises another exception ends the loop
    with that exception. *)
Lemma transform_line_load_error (line : str) (e : exn) (w : world) :
  load_error env line e -> transform_line env line w = (Raised e, w).
Proof.
  unfold load_error, transform_line. intros (Hs & Hj & Hne).
  destruct (strip line); [contradiction|]. rewrite Hj.
  destruct e; try reflexivity. contradiction.
Qed.

Lemma object_of_blank (line : str) : blank line -> object_of env line = None.
Proof. unfold blank, object_of. now intros ->. Qed.

Lemma object_of_malformed (line : str) :
  malformed env line -> object_of env line = None.
Proof.
  unfold malformed, object_of. intros [Hs Hj].
  destruct (strip line); [contradiction|]. now rewrite Hj.
Qed.

Lemma object_of_object (line : str) (d : dict) :
  parses_to env line (JDict d) -> object_of env line = Some d.
Proof.
  unfold parses_to, object_of. intros [Hs Hj].
  destruct (strip line); [contradiction|]. now rewrite Hj.
Qed.

Lemma object_of_other (line : str) (v : json) :
  parses_to env line v -> is_dict v = false -> object_of env line = None.
Proof.
  unfold parses_to, object_of. intros [Hs Hj] Hv.
  destruct (strip line); [contradiction|]. rewrite Hj.
  destruct v; try discriminate; reflexivity.
Qed.

(** ** The lines of one object *)


Lemma stamped_nth (ds : list dict) (t i : nat) :
  nth_error (stamped env t ds) i
    = option_map (transformed env (t + i)) (nth_error ds i).
Proof.
  revert t i; induction ds as [|d ds IH]; intros t [|i]; cbn;
    try reflexivity.
  - now rewrite Nat.add_0_r.
  - rewrite IH. now rewrite Nat.add_succ_r.
Qed.

(** Where every line is blank, malformed or an object, the loop returns:
    the objects' records in the order of the lines, each with the clock
    reading of its turn, after what was gathered before. *)
Lemma transform_lines_only_objects (lines : list str) :
  only_objects env lines ->
  forall acc w,
    transform_lines env lines acc w
      = (Returned (acc ++ stamped env (clock_reads w) (objects_of env lines)),
         {| calls := calls w;
            clock_reads :=
              clock_reads w + List.length (objects_of env lines) |}).
Proof.
  induction 1 as [|line lines Hl _ IH]; intros acc w; cbn.
  - rewrite app_nil_r, Nat.add_0_r. now destruct w.
  - unfold bind. destruct Hl as [Hb|[Hm|[d Hd]]].
    + rewrite transform_line_blank, object_of_blank by assumption. apply IH.
    + rewrite transform_line_malformed, object_of_malformed by assumption.
      apply IH.
    + rewrite (transform_line_object w Hd), (object_of_object Hd).
      rewrite IH. cbn. rewrite <- app_assoc. cbn.
      now rewrite Nat.add_succ_r.
Qed.

(** Storage is not touched while lines are transformed, whatever happens. *)
Lemma transform_line_calls (line : str) (w : world) :
  calls (snd (transform_line env line w)) = calls w.
Proof.
  destruct (line_cases line) as [H|[H|[[d H]|[[v [H Hv]]|[e H]]]]].
  - now rewrite transform_line_blank.
  - now rewrite transform_line_malformed.
  - now rewrite (transform_line_object w H).
  - now rewrite (transform_line_other w H Hv).
  - now rewrite (transform_line_load_error w H).
Qed.

Lemma transform_lines_calls (lines : list str) (acc : list str) (w : world) :
  calls (snd (transform_lines env lines acc w)) = calls w.
Proof.
  revert acc w; induction lines as [|line lines IH]; intros acc w; cbn;
    [reflexivity|].
  unfold bind. pose proof (transform_line_calls line w) as Hc.
  destruct (transform_line env line w) as [[r|e] w1]; cbn in Hc.
  - now rewrite IH.
  - exact Hc.
Qed.

(** The loop returns only where every line is blank, malformed or an
    object. *)
Lemma transform_lines_returned (lines : list str) (acc : list str)
    (w : world) (outs : list str) (w' : world) :
  transform_lines env lines acc w = (Returned outs, w') ->
  only_objects env lines.
Proof.
  revert acc w; induction lines as [|line lines IH]; intros acc w; cbn.
  - constructor.
  - unfold bind.
    destruct (line_cases line) as [H|[H|[[d H]|[[v [H Hv]]|[e H]]]]].
    + rewrite transform_line_blank by assumption. intros Hr.
      constructor; [now left|exact (IH _ _ Hr)].
    + rewrite transform_line_malformed by assumption. intros Hr.
      constructor; [now right; left|exact (IH _ _ Hr)].
    + rewrite (transform_line_object w H). intros Hr.
      constructor; [right; right; eauto|exact (IH _ _ Hr)].
    + rewrite (transform_line_other w H Hv). discriminate.
    + rewrite (transform_line_load_error w H). discriminate.
Qed.

(** The first line that holds JSON other than an object ends the loop. *)
Lemma transform_lines_raises (before : list str) (line : str)
    (after : list str) (v : json) (acc : list str) (w : world) :
  only_objects env before ->
  parses_to env line v -> is_dict v = false ->
  transform_lines env (before ++ line :: after) acc w
    = (Raised (not_a_dict_error v),
       {| calls := calls w;
          clock_reads :=
            clock_reads w + List.length (objects_of env before) |}).
Proof.
  intros Hb Hl Hv. revert acc w.
  induction Hb as [|l before Hk _ IH]; intros acc w; cbn; unfold bind.
  - rewrite (transform_line_other w Hl Hv). rewrite Nat.add_0_r.
    now destruct w.
  - destruct Hk as [Hk|[Hk|[d Hk]]].
    + rewrite transform_line_blank, object_of_blank by assumption. apply IH.
    + rewrite transform_line_malformed, object_of_malformed by assumption.
      apply IH.
    + rewrite (transform_line_object w Hk), (object_of_object Hk).
      rewrite IH. cbn. now rewrite Nat.add_succ_r.
Qed.

End Lines.

(** ** One notification *)

Lemma reads_app (a b : list call) : reads (a ++ b) = reads a ++ reads b.
Proof.
  induction a as [|[? ?|? ? ? ?] a IH]; cbn; [reflexivity| |assumption].
  now rewrite IH.
Qed.

Lemma writes_app (a b : list call) : writes (a ++ b) = writes a ++ writes b.
Proof.
  induction a as [|[? ?|? ? ? ?] a IH]; cbn; [reflexivity|assumption|].
  now rewrite IH.
Qed.

Section Notifications.

Variable env : Env.

(** The course of one notification, stage by stage. *)
Lemma process_record_stages (r : s3_record) (w : world) :
  process_record env r w =
    match s3_get_object env (calls w) (bucket_name r)
                        (unquote_plus (object_key r)) with
    | Raised e => (Raised e, requested r w)
    | Returned raw_body =>
        match gzip_read env raw_body with
        | Raised e => (Raised e, requested r w)
        | Returned raw =>
            match decode_utf8 raw with
            | Raised e => (Raised e, requested r w)
            | Returned text =>
                match transform_lines env (splitlines text) []
                                      (requested r w) with
                | (Raised e, w') => (Raised e, w')
                | (Returned [], w') => (Returned tt, w')
                | (Returned (out :: outs), w') =>
                    match encode_utf8 (join [10%N] (out :: outs)) with
                    | Raised e => (Raised e, w')
                    | Returned body =>
                        put_object env (bucket_name r)
                          (dest_key_of (unquote_plus (object_key r)))
                          body (lit "application/json") w'
                    end
                end
            end
        end
    end.
Proof.
  unfold process_record, bind, get_object, lift, requested.
  destruct (s3_get_object env _ _ _) as [raw_body|e]; [|reflexivity].
  destruct (gzip_read env raw_body) as [raw|e]; [|reflexivity].
  destruct (decode_utf8 raw) as [text|e]; [|reflexivity].
  destruct (transform_lines env _ _ _) as [[[|out outs]|e] w'];
    reflexivity.
Qed.

(** A notification requests its object first, and at most puts one object
    afterwards. *)
Lemma process_record_calls (r : s3_record) (w : world) :
  exists tl,
    calls (snd (process_record env r w)) = calls (requested r w) ++ tl /\
    (tl = [] \/
     exists body,
       tl = [PutObject (bucket_name r)
                       (dest_key_of (unquote_plus (object_key r)))
                       body (lit "application/json")]).
Proof.
  rewrite process_record_stages.
  destruct (s3_get_object env _ _ _) as [raw_body|e];
    [|exists []; rewrite app_nil_r; auto].
  destruct (gzip_read env raw_body) as [raw|e];
    [|exists []; rewrite app_nil_r; auto].
  destruct (decode_utf8 raw) as [text|e];
    [|exists []; rewrite app_nil_r; auto].
  pose proof (transform_lines_calls env (splitlines text) [] (requested r w))
    as Hc.
  destruct (transform_lines env _ _ _) as [[[|out outs]|e] w']; cbn in Hc;
    try (exists []; rewrite app_nil_r; cbn; auto; fail).
  destruct (encode_utf8 _) as [body|e];
    [|exists []; rewrite app_nil_r; cbn; auto].
  eexists. split; [|right; eexists; reflexivity].
  unfold put_object. cbn. now rewrite Hc.
Qed.

(** A notification that puts an object puts the records of the objects of
    its input, joined by line feeds and encoded. *)
Lemma process_record_write (r : s3_record) (w : world)
    (b k : str) (body : bytes) (ct : str) :
  writes (calls (snd (process_record env r w)))
    = writes (calls w) ++ [(b, k, body, ct)] ->
  exists raw_body raw text,
    s3_get_object env (calls w) (bucket_name r)
                  (unquote_plus (object_key r)) = Returned raw_body /\
    gzip_read env raw_body = Returned raw /\
    decode_utf8 raw = Returned text /\
    only_objects env (splitlines text) /\
    encode_utf8
      (join [10%N]
         (stamped env (clock_reads w) (objects_of env (splitlines text))))
      = Returned body.
Proof.
  rewrite process_record_stages.
  assert (Hno : forall x : str * str * bytes * str,
             writes (calls (requested r w)) <> writes (calls w) ++ [x]).
  { intros x. unfold requested. cbn. rewrite writes_app. cbn.
    rewrite app_nil_r. intros H.
    apply (f_equal (@List.length _)) in H. rewrite length_app in H.
    cbn in H. lia. }
  destruct (s3_get_object env _ _ _) as [raw_body|e] eqn:Hget;
    [|intros H; now apply Hno in H].
  destruct (gzip_read env raw_body) as [raw|e] eqn:Hgz;
    [|intros H; now apply Hno in H].
  destruct (decode_utf8 raw) as [text|e] eqn:Hdec;
    [|intros H; now apply Hno in H].
  pose proof (transform_lines_calls env (splitlines text) [] (requested r w))
    as Hc.
  destruct (transform_lines env _ _ _) as [[outs|e] w'] eqn:Ht; cbn in Hc;
    [|cbn; rewrite Hc; intros H; now apply Hno in H].
  pose proof (transform_lines_returned _ _ _ _ Ht) as Hobj.
  rewrite (transform_lines_only_objects Hobj) in Ht.
  injection Ht as <- <-. cbn [app] in *.
  destruct (stamped env _ _) as [|out outs] eqn:Hs;
    [cbn; intros H; now apply Hno in H|].
  destruct (encode_utf8 _) as [body'|e] eqn:He;
    [|cbn; intros H; now apply Hno in H].
  unfold put_object. cbn. rewrite writes_app, writes_app. cbn.
  rewrite app_nil_r. intros H. apply app_inv_head in H.
  injection H as <- <- <- <-.
  exists raw_body, raw, text. cbn in Hs. rewrite Hs. auto.
Qed.

(** A notification whose object holds records: they are put, joined by line
    feeds and encoded, under the destination key. *)
Lemma process_record_transforms (r : s3_record) (w : world)
    (raw_body raw : bytes) (text : str) (body : bytes) :
  s3_get_object env (calls w) (bucket_name r)
                (unquote_plus (object_key r)) = Returned raw_body ->
  gzip_read env raw_body = Returned raw ->
  decode_utf8 raw = Returned text ->
  only_objects env (splitlines text) ->
  objects_of env (splitlines text) <> [] ->
  encode_utf8
    (join [10%N]
       (stamped env (clock_reads w) (objects_of env (splitlines text))))
    = Returned body ->
  process_record env r w
    = put_object env (bucket_name r)
        (dest_key_of (unquote_plus (object_key r))) body
        (lit "application/json")
        {| calls := calls (requested r w);
           clock_reads :=
             clock_reads w +
             List.length (objects_of env (splitlines text)) |}.
Proof.
  intros Hg Hz Hd Hobj Hne He.
  rewrite process_record_stages, Hg, Hz, Hd.
  rewrite (transform_lines_only_objects Hobj). cbn [app clock_reads requested].
  destruct (objects_of env (splitlines text)) as [|d ds]; [contradiction|].
  cbn [stamped] in *. now rewrite He.
Qed.

End Notifications.

(** ** The batch *)

Section Batch.

Variable env : Env.

Lemma for_records_app (a b : list s3_record) (w : world) :
  for_records env (a ++ b) w =
    match for_records env a w with
    | (Returned _, w') => for_records env b w'
    | (Raised e, w') => (Raised e, w')
    end.
Proof.
  revert w; induction a as [|r a IH]; intros w; cbn; [reflexivity|].
  unfold bind. destruct (process_record env r w) as [[[]|e] w1];
    [apply IH|reflexivity].
Qed.

Lemma lambda_handler_batch (ev : event) (w : world) :
  lambda_handler env ev w =
    match for_records env (event_records ev) w with
    | (Returned _, w') => (Returned status_ok, w')
    | (Raised e, w') => (Raised e, w')
    end.
Proof. reflexivity. Qed.

Lemma process_record_reads (r : s3_record) (w : world) :
  reads (calls (snd (process_record env r w)))
    = reads (calls w) ++ [source_of r].
Proof.
  destruct (process_record_calls env r w) as (tl & -> & Htl).
  unfold requested. cbn. rewrite !reads_app. cbn.
  destruct Htl as [->|[body ->]]; cbn; now rewrite app_nil_r.
Qed.

(** Notifications are taken in the order of the list, up to the first that
    raises. *)
Lemma for_records_reads (records : list s3_record) (w : world) :
  exists n,
    n <= List.length records /\
    reads (calls (snd (for_records env records w)))
      = reads (calls w) ++ map source_of (firstn n records) /\
    (forall u, fst (for_records env records w) = Returned u ->
               n = List.length records).
Proof.
  revert w; induction records as [|r records IH]; intros w; cbn.
  - exists 0. rewrite app_nil_r. auto.
  - unfold bind. pose proof (process_record_reads r w) as Hr.
    destruct (process_record env r w) as [[[]|e] w1]; cbn in Hr.
    + destruct (IH w1) as (n & Hn & Hreads & Hall).
      exists (S n). cbn. rewrite Hreads, Hr, <- app_assoc.
      repeat split; [lia|]. intros u Hu. now rewrite (Hall u Hu).
    + exists 1. cbn. repeat split; [lia|assumption|discriminate].
Qed.

Lemma fails_with_raises (r : s3_record) (w : world) (e : exn) :
  fails_with env r w e ->
  exists w', process_record env r w = (Raised e, w').
Proof.
  intros H. rewrite process_record_stages.
  destruct H as [Hg|raw_body Hg Hz|raw_body raw Hg Hz Hd
                |raw_body raw text out outs w' Hg Hz Hd Ht He
                |raw_body raw text out outs w' body Hg Hz Hd Ht He Hp];
    rewrite Hg; try rewrite Hz; try rewrite Hd; try rewrite Ht;
    try rewrite He; try (eexists; reflexivity).
  unfold put_object. rewrite Hp. eexists; reflexivity.
Qed.

(** A notification puts nothing or one object. *)
Lemma process_record_puts (r : s3_record) (w : world) :
  writes (calls (snd (process_record env r w))) = writes (calls w) \/
  exists x,
    writes (calls (snd (process_record env r w))) = writes (calls w) ++ [x].
Proof.
  destruct (process_record_calls env r w) as (tl & -> & Htl).
  unfold requested. cbn. rewrite !writes_app. cbn. rewrite app_nil_r.
  destruct Htl as [->|[body ->]]; cbn.
  - left. now rewrite app_nil_r.
  - right. eauto.
Qed.

(** What holds of the object of each notification that puts one holds of
    all the objects a batch puts. *)
Lemma for_records_puts (P : str * str * bytes * str -> Prop) :
  (forall r w x,
      writes (calls (snd (process_record env r w))) = writes (calls w) ++ [x] ->
      P x) ->
  forall records w,
    exists news,
      writes (calls (snd (for_records env records w)))
        = writes (calls w) ++ news /\
      Forall P news.
Proof.
  intros HP. induction records as [|r records IH]; intros w; cbn.
  - exists []. rewrite app_nil_r. auto.
  - unfold bind. pose proof (process_record_puts r w) as Hr.
    pose proof (HP r w) as Hx.
    destruct (process_record env r w) as [[[]|e] w1]; cbn in Hr, Hx.
    + destruct (IH w1) as (news & Hn & HF).
      destruct Hr as [Hr|[x Hr]]; rewrite Hn, Hr.
      * eauto.
      * exists (x :: news). rewrite <- app_assoc. split; [reflexivity|].
        constructor; auto.
    + cbn. destruct Hr as [Hr|[x Hr]]; rewrite Hr.
      * exists []. rewrite app_nil_r. auto.
      * exists [x]. auto.
Qed.

Lemma lambda_handler_calls (ev : event) (w : world) :
  calls (snd (lambda_handler env ev w))
    = calls (snd (for_records env (event_records ev) w)).
Proof.
  rewrite lambda_handler_batch.
  now destruct (for_records env (event_records ev) w) as [[u|e] w'].
Qed.

End Batch.

(** ** The records written *)

Section Records.

Variable env : Env.

Lemma transformed_no_user_id (t : nat) (d : dict) :
  exists d',
    transformed env t d = json_dumps env (JDict d') /\
    dict_get (lit "user_id") d' = None /\
    dict_get (lit "processed_ts") d'
      = Some (JStr (isoformat (utc_now env t))) /\
    (forall k, k <> lit "user_id" -> k <> lit "processed_ts" ->
               dict_get k d' = dict_get k d).
Proof.
  eexists. split; [reflexivity|]. split; [|split].
  - rewrite dict_get_set_other by discriminate. apply dict_get_pop_same.
  - apply dict_get_set_same.
  - intros k Hu Hp. rewrite dict_get_set_other by assumption.
    now apply dict_get_pop_other.
Qed.

Lemma stamped_nth_inv (ds : list dict) (t i : nat) (out : str) :
  nth_error (stamped env t ds) i = Some out ->
  exists d, nth_error ds i = Some d /\ out = transformed env (t + i) d.
Proof.
  rewrite stamped_nth. destruct (nth_error ds i) as [d|]; [|discriminate].
  cbn. intros [= <-]. now exists d.
Qed.

End Records.

(** C1. A line that holds a JSON object becomes a line that holds the same
    object without [user_id] (its other fields kept, [processed_ts] apart);
    where the object has no [user_id], removing it changes nothing and
    raises nothing.  Every line of every object the handler puts is such a
    line. *)
Theorem user_id_removed (env : Env) :
  (forall line d w,
      parses_to env line (JDict d) ->
      exists d',
        transform_line env line w
          = (Returned (Some (json_dumps env (JDict d'))), ticked w) /\
        dict_get (lit "user_id") d' = None /\
        (forall k, k <> lit "user_id" -> k <> lit "processed_ts" ->
                   dict_get k d' = dict_get k d) /\
        (dict_get (lit "user_id") d = None ->
         py_pop (JDict d) (lit "user_id") = Returned (JDict d))) /\
  (forall ev w,
      exists news,
        writes (calls (snd (lambda_handler env ev w)))
          = writes (calls w) ++ news /\
        Forall (fun '(_, _, body, _) =>
                  exists outs,
                    encode_utf8 (join [10%N] outs) = Returned body /\
                    Forall (fun out => exists d',
                                out = json_dumps env (JDict d') /\
                                dict_get (lit "user_id") d' = None) outs)
               news).
Proof.
  split.
  - intros line d w Hd.
    destruct (transformed_no_user_id env (clock_reads w) d)
      as (d' & Hout & Hu & _ & Hk).
    exists d'. rewrite (transform_line_object w Hd), Hout.
    repeat split; try assumption.
    intros Habs. cbn. now rewrite dict_pop_absent.
  - intros ev w. rewrite lambda_handler_calls.
    apply for_records_puts. clear ev w.
    intros r w [[[b k] body] ct] Hw.
    apply process_record_write in Hw
      as (raw_body & raw & text & _ & _ & _ & _ & Henc).
    eexists. split; [exact Henc|].
    apply Forall_forall. intros out Hin.
    apply In_nth_error in Hin as [i Hi].
    apply stamped_nth_inv in Hi as (d & _ & ->).
    destruct (transformed_no_user_id env (clock_reads w + i) d)
      as (d' & Hout & Hu & _).
    now exists d'.
Qed.

(** C2. A line that holds a JSON object becomes a line whose [processed_ts]
    is the clock's reading taken for this record, printed as an ISO-8601
    timestamp in UTC, whatever [processed_ts] the object had, and the clock
    has then been read once more.  So in every object the handler puts, line
    [i] carries reading [t + i] of the clock, [t] being the readings made
    before the object's notification: each record has a reading of its
    own. *)
Theorem processed_ts_stamped (env : Env) :
  (forall line d w,
      parses_to env line (JDict d) ->
      exists d',
        transform_line env line w
          = (Returned (Some (json_dumps env (JDict d'))),
             {| calls := calls w; clock_reads := S (clock_reads w) |}) /\
        dict_get (lit "processed_ts") d'
          = Some (JStr (isoformat (utc_now env (clock_reads w)))) /\
        is_iso8601_utc (isoformat (utc_now env (clock_reads w))) = true) /\
  (forall ev w,
      exists news,
        writes (calls (snd (lambda_handler env ev w)))
          = writes (calls w) ++ news /\
        Forall (fun '(_, _, body, _) =>
                  exists t outs,
                    encode_utf8 (join [10%N] outs) = Returned body /\
                    forall i out,
                      nth_error outs i = Some out ->
                      exists d',
                        out = json_dumps env (JDict d') /\
                        dict_get (lit "processed_ts") d'
                          = Some (JStr (isoformat (utc_now env (t + i)))) /\
                        is_iso8601_utc (isoformat (utc_now env (t + i)))
                          = true)
               news).
Proof.
  split.
  - intros line d w Hd.
    destruct (transformed_no_user_id env (clock_reads w) d)
      as (d' & Hout & _ & Hp & _).
    exists d'. rewrite (transform_line_object w Hd), Hout.
    repeat split; [assumption|apply isoformat_is_iso8601].
  - intros ev w. rewrite lambda_handler_calls.
    apply for_records_puts. clear ev w.
    intros r w [[[b k] body] ct] Hw.
    apply process_record_write in Hw
      as (raw_body & raw & text & _ & _ & _ & _ & Henc).
    exists (clock_reads w). eexists. split; [exact Henc|].
    intros i out Hi.
    apply stamped_nth_inv in Hi as (d & _ & ->).
    destruct (transformed_no_user_id env (clock_reads w + i) d)
      as (d' & Hout & _ & Hp & _).
    exists d'. repeat split; [assumption..|apply isoformat_is_iso8601].
Qed.

(** ** Skipped lines *)



(** ** Objects without records *)


(** ** Failures *)

(** C6. The handler requests the objects of the notifications in the order
    of the list, as far as it gets.  A failure of the read, of the
    decompression, of the decoding, of the encoding or of the write of
    notification [r] leaves the handler as the exception it raises, in the
    world in which [r] failed: nothing is done for the notifications after
    [r]. *)
Theorem failure_stops_batch (env : Env) :
  (forall records w,
      exists n,
        n <= List.length records /\
        reads (calls (snd (lambda_handler env {| Records := Some records |} w)))
          = reads (calls w) ++ map source_of (firstn n records) /\
        (forall v,
            fst (lambda_handler env {| Records := Some records |} w)
              = Returned v ->
            n = List.length records)) /\
  (forall before r after w w1 e,
      for_records env before w = (Returned tt, w1) ->
      fails_with env r w1 e ->
      exists w2,
        process_record env r w1 = (Raised e, w2) /\
        lambda_handler env {| Records := Some (before ++ r :: after) |} w
          = (Raised e, w2) /\
        reads (calls w2)
          = reads (calls w) ++ map source_of (before ++ [r])).
Proof.
  split.
  - intros records w. rewrite lambda_handler_batch. cbn [event_records Records].
    destruct (for_records_reads env records w) as (n & Hn & Hr & Hall).
    exists n. destruct (for_records env records w) as [[u|e] w']; cbn in *.
    + repeat split; try assumption. intros _ _. now apply (Hall u).
    + repeat split; try assumption. discriminate.
  - intros before r after w w1 e Hbefore Hfail.
    destruct (fails_with_raises Hfail) as [w2 Hr].
    exists w2. split; [exact Hr|]. split.
    + rewrite lambda_handler_batch. cbn [event_records Records].
      rewrite for_records_app, Hbefore. cbn. unfold bind. now rewrite Hr.
    + pose proof (process_record_reads env r w1) as H2. rewrite Hr in H2.
      cbn in H2. rewrite H2.
      destruct (for_records_reads env before w) as (n & _ & Hreads & Hall).
      rewrite Hbefore in Hreads, Hall. cbn in Hreads, Hall.
      rewrite (Hall tt eq_refl), firstn_all in Hreads.
      now rewrite Hreads, map_app, app_assoc.
Qed.

(** ** The value returned *)

(** C7. Whatever the event, a handler that returns returns
    [{"status": "ok"}]: the value tells nothing of what was done. *)
Theorem returns_status_ok (env : Env) (ev : event) (w w' : world) (v : json) :
  lambda_handler env ev w = (Returned v, w') ->
  v = status_ok.
Proof.
  rewrite lambda_handler_batch.
  destruct (for_records env (event_records ev) w) as [[u|e] w1];
    [|discriminate].
  now intros [= <- _].
Qed.

(** ** JSON that is not an object *)

(** C9. A line that holds JSON other than an object -- an array, a number,
    a string, [true], [false], [null] -- is not skipped: [pop] raises on
    it, a [TypeError] on an array and an [AttributeError] on the others.
    The handler ends with that exception, having put nothing for this
    object and done nothing for the notifications after it. *)
Theorem non_object_line_raises (env : Env)
    (before_records : list s3_record) (r : s3_record)
    (after_records : list s3_record) (w w1 : world)
    (raw_body raw : bytes) (text : str)
    (before : list str) (line : str) (after : list str) (v : json) :
  for_records env before_records w = (Returned tt, w1) ->
  s3_get_object env (calls w1) (bucket_name r)
                (unquote_plus (object_key r)) = Returned raw_body ->
  gzip_read env raw_body = Returned raw ->
  decode_utf8 raw = Returned text ->
  splitlines text = before ++ line :: after ->
  only_objects env before ->
  parses_to env line v ->
  is_dict v = false ->
  lambda_handler env
      {| Records := Some (before_records ++ r :: after_records) |} w
    = (Raised (not_a_dict_error v),
       {| calls := calls w1 ++ [GetObject (bucket_name r)
                                          (unquote_plus (object_key r))];
          clock_reads :=
            clock_reads w1 + List.length (objects_of env before) |}).
Proof.
  intros Hpre Hg Hz Hd Hsplit Hbefore Hline Hv.
  rewrite lambda_handler_batch. cbn [event_records Records].
  rewrite for_records_app, Hpre. cbn. unfold bind.
  rewrite process_record_stages, Hg, Hz, Hd, Hsplit.
  now rewrite (transform_lines_raises after [] (requested r w1)
                 Hbefore Hline Hv).
Qed.

(** ** No notification *)

(** C10. An event without ["Records"], or with an empty list of them, makes
    the handler return [{"status": "ok"}] at once: no call to the store is
    made and the world is as it was. *)
Theorem no_records_no_effect (env : Env) (w : world) :
  lambda_handler env {| Records := None |} w = (Returned status_ok, w) /\
  lambda_handler env {| Records := Some [] |} w = (Returned status_ok, w).
Proof. split; reflexivity. Qed.

(** ** Decoding of keys *)

Lemma utf8_lead_pending_ok (b : N) (need : nat) (acc lo hi : N) :
  utf8_lead b = LeadSeq need acc lo hi -> (0x80 <= lo)%N.
Proof.
  unfold utf8_lead.
  repeat match goal with
         | |- context [if ?c then _ else _] => destruct c
         end; intros [= <- <- <- <-] || discriminate; lia.
Qed.

Lemma utf8_lead_ascii (c : N) : (c < 0x80)%N -> utf8_lead c = LeadChar c.
Proof.
  intros H. unfold utf8_lead. apply N.ltb_lt in H. now rewrite H.
Qed.

(** With errors replaced the decoder always decodes. *)
Lemma utf8_decode_replace_total (s : list N) :
  forall p, exists r, utf8_decode true p s = Some r.
Proof.
  induction s as [|b s IH]; intros p; cbn [utf8_decode].
  - destruct p; eauto.
  - destruct p as [[[[need acc] lo] hi]|].
    + destruct (in_range lo hi b).
      * destruct need as [|[|n]].
        -- apply IH.
        -- destruct (IH None) as [r ->]. cbn. eauto.
        -- apply IH.
      * cbn. destruct (utf8_lead b) as [c|n a l h|].
        -- destruct (IH None) as [r ->]. cbn. eauto.
        -- destruct (IH (Some (n, a, l, h))) as [r ->]. cbn. eauto.
        -- destruct (IH None) as [r ->]. cbn. eauto.
    + cbn. destruct (utf8_lead b) as [c|n a l h|].
      * destruct (IH None) as [r ->]. cbn. eauto.
      * destruct (IH (Some (n, a, l, h))) as [r ->]. cbn. eauto.
      * destruct (IH None) as [r ->]. cbn. eauto.
Qed.

(** An ASCII octet ends whatever was being read and stands for itself. *)
Lemma utf8_decode_replace_ascii (c : N) (x y : list N) :
  (c < 0x80)%N ->
  forall p rx ry,
    pending_ok p ->
    utf8_decode true p x = Some rx ->
    utf8_decode true None y = Some ry ->
    utf8_decode true p (x ++ c :: y) = Some (rx ++ c :: ry).
Proof.
  intros Hc. induction x as [|b x IH]; intros p rx ry Hp Hx Hy.
  - cbn [app utf8_decode] in *.
    assert (Hout : forall lo hi, (0x80 <= lo)%N -> in_range lo hi c = false).
    { intros lo hi Hlo. unfold in_range.
      apply andb_false_iff. left. apply N.leb_gt. lia. }
    rewrite (utf8_lead_ascii Hc), Hy.
    destruct p as [[[[need acc] lo] hi]|]; cbn in Hp.
    + rewrite (Hout lo hi Hp). cbn. now injection Hx as <-.
    + cbn. now injection Hx as <-.
  - cbn [app utf8_decode] in *.
    destruct p as [[[[need acc] lo] hi]|]; cbn in Hp.
    + destruct (in_range lo hi b).
      * destruct need as [|[|n]].
        -- apply IH; cbn; auto. lia.
        -- destruct (utf8_decode true None x) as [r|] eqn:Er;
             [|discriminate].
           cbn in Hx. injection Hx as <-.
           rewrite (IH None r ry I Er Hy). reflexivity.
        -- apply IH; cbn; auto. lia.
      * cbn in *. destruct (utf8_lead b) as [c0|n a l h|] eqn:El.
        -- destruct (utf8_decode true None x) as [r|] eqn:Er;
             [|discriminate].
           cbn in Hx. injection Hx as <-.
           rewrite (IH None r ry I Er Hy). reflexivity.
        -- destruct (utf8_decode true (Some (n, a, l, h)) x) as [r|] eqn:Er;
             [|discriminate].
           cbn in Hx. injection Hx as <-.
           rewrite (IH (Some (n, a, l, h)) r ry (@utf8_lead_pending_ok b n a l h El) Er Hy).
           reflexivity.
        -- destruct (utf8_decode true None x) as [r|] eqn:Er;
             [|discriminate].
           cbn in Hx. injection Hx as <-.
           rewrite (IH None r ry I Er Hy). reflexivity.
    + cbn in *. destruct (utf8_lead b) as [c0|n a l h|] eqn:El.
      * destruct (utf8_decode true None x) as [r|] eqn:Er; [|discriminate].
        cbn in Hx. injection Hx as <-.
        rewrite (IH None r ry I Er Hy). reflexivity.
      * destruct (utf8_decode true (Some (n, a, l, h)) x) as [r|] eqn:Er;
          [|discriminate].
        cbn in Hx. injection Hx as <-.
        rewrite (IH (Some (n, a, l, h)) r ry (@utf8_lead_pending_ok b n a l h El) Er Hy). reflexivity.
      * destruct (utf8_decode true None x) as [r|] eqn:Er; [|discriminate].
        cbn in Hx. injection Hx as <-.
        rewrite (IH None r ry I Er Hy). reflexivity.
Qed.

Lemma decode_utf8_replace_ascii (c : N) (x y : list N) :
  (c < 0x80)%N ->
  decode_utf8_replace (x ++ c :: y)
    = decode_utf8_replace x ++ c :: decode_utf8_replace y.
Proof.
  intros Hc. unfold decode_utf8_replace.
  destruct (utf8_decode_replace_total x None) as [rx Hx].
  destruct (utf8_decode_replace_total y None) as [ry Hy].
  now rewrite (utf8_decode_replace_ascii x y Hc None I Hx Hy), Hx, Hy.
Qed.

Lemma unquote_to_bytes_plain (s : str) :
  existsb (N.eqb PERCENT) s = false -> unquote_to_bytes s = s.
Proof.
  induction s as [|c s IH]; cbn [existsb unquote_to_bytes]; [reflexivity|].
  intros H. apply orb_false_iff in H as [Hc Hs].
  rewrite N.eqb_sym, Hc. now rewrite IH.
Qed.

Lemma utf8_decode_ascii (replace : bool) (s : list N) :
  forallb (fun c => N.ltb c 0x80) s = true ->
  utf8_decode replace None s = Some s.
Proof.
  induction s as [|c s IH]; cbn [forallb utf8_decode]; [reflexivity|].
  intros H. apply andb_true_iff in H as [Hc Hs].
  apply N.ltb_lt in Hc. rewrite (utf8_lead_ascii Hc), (IH Hs).
  reflexivity.
Qed.

(** A character that is neither ['%'] nor a hex digit is an octet of its
    own, whatever comes before it. *)
Lemma unquote_to_bytes_stop (c : N) (y : str) :
  c <> PERCENT -> hex_value c = None ->
  forall n x, List.length x <= n ->
    unquote_to_bytes (x ++ c :: y) = unquote_to_bytes x ++ c :: unquote_to_bytes y.
Proof.
  intros Hc Hh. apply N.eqb_neq in Hc.
  induction n as [|n IH]; intros x Hn.
  - destruct x; [|cbn in Hn; lia]. cbn. now rewrite Hc.
  - destruct x as [|a x]; [cbn; now rewrite Hc|].
    cbn in Hn. cbn [app unquote_to_bytes].
    destruct (N.eqb a PERCENT); [|now rewrite IH by (cbn in *; lia)].
    destruct x as [|h1 [|h2 x]]; cbn [app].
    + destruct y; cbn [unquote_to_bytes]; rewrite ?Hh, Hc; reflexivity.
    + rewrite Hh.
      replace (match hex_value h1 with
               | Some _ | _ => PERCENT :: unquote_to_bytes (h1 :: c :: y)
               end) with (PERCENT :: unquote_to_bytes (h1 :: c :: y))
        by (destruct (hex_value h1); reflexivity).
      change (h1 :: c :: y) with ([h1] ++ c :: y).
      rewrite (IH [h1]) by (cbn in *; lia). reflexivity.
    + cbn in Hn.
      destruct (hex_value h1), (hex_value h2);
        try (change (h1 :: h2 :: x ++ c :: y)
               with ((h1 :: h2 :: x) ++ c :: y);
             rewrite (IH (h1 :: h2 :: x)) by (cbn in *; lia); reflexivity).
      now rewrite IH by (cbn in *; lia).
Qed.

(** An escape is its octet, whatever comes before it. *)
Lemma unquote_to_bytes_escape (h1 h2 u v : N) (y : str) :
  hex_value h1 = Some u -> hex_value h2 = Some v ->
  forall n x, List.length x <= n ->
    unquote_to_bytes (x ++ PERCENT :: h1 :: h2 :: y)
      = unquote_to_bytes x ++ (16 * u + v)%N :: unquote_to_bytes y.
Proof.
  intros H1 H2.
  assert (Hp : hex_value PERCENT = None) by reflexivity.
  induction n as [|n IH]; intros x Hn.
  - destruct x; [|cbn in Hn; lia]. cbn. now rewrite H1, H2.
  - destruct x as [|a x]; [cbn; now rewrite H1, H2|].
    cbn in Hn. cbn [app unquote_to_bytes].
    destruct (N.eqb a PERCENT); [|now rewrite IH by (cbn in *; lia)].
    destruct x as [|g1 [|g2 x]]; cbn [app].
    + rewrite Hp. change (PERCENT :: h1 :: h2 :: y)
        with ([] ++ PERCENT :: h1 :: h2 :: y).
      rewrite (IH []) by (cbn in *; lia). reflexivity.
    + rewrite Hp.
      replace (match hex_value g1 with
               | Some _ | _ =>
                   PERCENT ::
                     unquote_to_bytes (g1 :: PERCENT :: h1 :: h2 :: y)
               end)
        with (PERCENT :: unquote_to_bytes (g1 :: PERCENT :: h1 :: h2 :: y))
        by (destruct (hex_value g1); reflexivity).
      change (g1 :: PERCENT :: h1 :: h2 :: y)
        with ([g1] ++ PERCENT :: h1 :: h2 :: y).
      rewrite (IH [g1]) by (cbn in *; lia). reflexivity.
    + cbn in Hn.
      destruct (hex_value g1), (hex_value g2);
        try (change (g1 :: g2 :: x ++ PERCENT :: h1 :: h2 :: y)
               with ((g1 :: g2 :: x) ++ PERCENT :: h1 :: h2 :: y);
             rewrite (IH (g1 :: g2 :: x)) by (cbn in *; lia); reflexivity).
      now rewrite IH by (cbn in *; lia).
Qed.

Section Token.

(** [tok] is a run of ASCII characters that unquotes to the one ASCII octet
    [c] wherever it stands: a space, or the escape of an ASCII character. *)
Variables (tok : str) (c : N).
Hypothesis tok_ascii : forallb (fun a => N.ltb a 128) tok = true.
Hypothesis c_ascii : (c < 0x80)%N.
Hypothesis tok_unquotes :
  forall x y,
    unquote_to_bytes (x ++ tok ++ y)
      = unquote_to_bytes x ++ c :: unquote_to_bytes y.

Lemma unquote_parts_enter (y : str) :
  forall run, unquote_parts run (tok ++ y) = unquote_parts (rev tok ++ run) y.
Proof.
  revert tok_ascii. clear tok_unquotes.
  induction tok as [|a t IH]; intros Ht run; [reflexivity|].
  cbn [forallb] in Ht. apply andb_true_iff in Ht as [Ha Ht].
  cbn [app unquote_parts rev]. rewrite Ha, (IH Ht).
  now rewrite <- app_assoc.
Qed.

Lemma unquote_parts_leave (r1 : str) (y : str) :
  forall r2,
    unquote_parts (r2 ++ rev tok ++ r1) y
      = unquote_run r1 ++ c :: unquote_parts r2 y.
Proof.
  assert (Hrun : forall r2,
             unquote_run (r2 ++ rev tok ++ r1)
               = unquote_run r1 ++ c :: unquote_run r2).
  { intros r2. unfold unquote_run.
    rewrite !rev_app_distr, rev_involutive, <- app_assoc, tok_unquotes.
    now apply decode_utf8_replace_ascii. }
  induction y as [|a y IH]; intros r2; cbn [unquote_parts].
  - apply Hrun.
  - destruct (N.ltb a 128).
    + apply (IH (a :: r2)).
    + rewrite Hrun, <- app_assoc. reflexivity.
Qed.

Lemma unquote_parts_token (x y : str) :
  forall run,
    unquote_parts run (x ++ tok ++ y)
      = unquote_parts run x ++ c :: unquote_parts [] y.
Proof.
  induction x as [|a x IH]; intros run; cbn [app unquote_parts].
  - rewrite unquote_parts_enter. apply (unquote_parts_leave run y []).
  - destruct (N.ltb a 128).
    + apply IH.
    + rewrite IH, <- app_assoc. reflexivity.
Qed.

End Token.

Lemma unquote_parts_plain (s : str) :
  existsb (N.eqb PERCENT) s = false ->
  forall run,
    existsb (N.eqb PERCENT) (rev run) = false ->
    forallb (fun a => N.ltb a 128) (rev run) = true ->
    unquote_parts run s = rev run ++ s.
Proof.
  induction s as [|a s IH]; cbn [existsb unquote_parts]; intros Hs run Hp Ha.
  - unfold unquote_run, decode_utf8_replace.
    rewrite (unquote_to_bytes_plain _ Hp), (utf8_decode_ascii true _ Ha).
    now rewrite app_nil_r.
  - apply orb_false_iff in Hs as [Hc Hs].
    destruct (N.ltb a 128) eqn:E.
    + rewrite (IH Hs (a :: run)); cbn [rev].
      * now rewrite <- app_assoc.
      * rewrite existsb_app, Hp. cbn [existsb orb]. now rewrite Hc.
      * rewrite forallb_app, Ha. cbn [forallb andb]. now rewrite E.
    + rewrite (IH Hs []) by reflexivity.
      unfold unquote_run, decode_utf8_replace.
      rewrite (unquote_to_bytes_plain _ Hp), (utf8_decode_ascii true _ Ha).
      reflexivity.
Qed.

Lemma unquote_parts_all (s : str) : unquote s = unquote_parts [] s.
Proof.
  unfold unquote. destruct (existsb (N.eqb PERCENT) s) eqn:E; [reflexivity|].
  now rewrite (unquote_parts_plain _ E []).
Qed.

Lemma replace_plus_app (a b : str) :
  replace_plus (a ++ b) = replace_plus a ++ replace_plus b.
Proof. apply map_app. Qed.

Lemma hex_digit_kept (h u : N) :
  hex_value h = Some u -> replace_plus [h] = [h].
Proof.
  intros H. unfold replace_plus. cbn.
  destruct (N.eqb_spec h 43) as [->|]; [discriminate|reflexivity].
Qed.

(** A ['+'] of the key is a space of the decoded key. *)
Lemma unquote_plus_plus (a b : str) :
  unquote_plus (a ++ lit "+" ++ b)
    = unquote_plus a ++ lit " " ++ unquote_plus b.
Proof.
  unfold unquote_plus. rewrite !replace_plus_app.
  rewrite !unquote_parts_all.
  change (replace_plus (lit "+")) with [32%N]. change (lit " ") with [32%N].
  apply unquote_parts_token; [reflexivity|reflexivity|].
  intros x y. cbn [app].
  apply (@unquote_to_bytes_stop 32 y) with (n := List.length x);
    [discriminate|reflexivity|lia].
Qed.

(** The escape of an ASCII character is that character in the decoded
    key. *)
Lemma unquote_plus_escape (a b : str) (h1 h2 u v : N) :
  hex_value h1 = Some u -> hex_value h2 = Some v -> (16 * u + v < 128)%N ->
  unquote_plus (a ++ lit "%" ++ [h1; h2] ++ b)
    = unquote_plus a ++ [(16 * u + v)%N] ++ unquote_plus b.
Proof.
  intros H1 H2 Hc. unfold unquote_plus. rewrite !replace_plus_app.
  rewrite !unquote_parts_all.
  change (replace_plus (lit "%")) with [PERCENT].
  change [h1; h2] with ([h1] ++ [h2]). rewrite replace_plus_app.
  rewrite (hex_digit_kept _ H1), (hex_digit_kept _ H2).
  change ([PERCENT] ++ ([h1] ++ [h2]) ++ replace_plus b)
    with ([PERCENT; h1; h2] ++ replace_plus b).
  apply unquote_parts_token; [|exact Hc|].
  - cbn. apply andb_true_iff. split; [|apply andb_true_iff; split];
      [| |reflexivity]; apply N.ltb_lt.
    + revert H1. unfold hex_value, in_range.
      repeat match goal with
             | |- context [if ?c then _ else _] => destruct c eqn:?
             end; try discriminate; intros _;
        repeat match goal with
               | H : _ && _ = true |- _ => apply andb_true_iff in H as [? ?]
               | H : N.leb _ _ = true |- _ => apply N.leb_le in H
               end; lia.
    + revert H2. unfold hex_value, in_range.
      repeat match goal with
             | |- context [if ?c then _ else _] => destruct c eqn:?
             end; try discriminate; intros _;
        repeat match goal with
               | H : _ && _ = true |- _ => apply andb_true_iff in H as [? ?]
               | H : N.leb _ _ = true |- _ => apply N.leb_le in H
               end; lia.
  - intros x y. cbn [app].
    apply (@unquote_to_bytes_escape h1 h2 u v y H1 H2 (List.length x) x).
    lia.
Qed.

(** *** Decoding what was encoded *)

Ltac compare_octets :=
  repeat match goal with
         | |- context [N.ltb ?a ?b] => destruct (N.ltb_spec a b); try lia
         | |- context [N.eqb ?a ?b] => destruct (N.eqb_spec a b); try lia
         | |- context [N.leb ?a ?b] => destruct (N.leb_spec a b); try lia
         end.

Lemma utf8_lead_two (x : N) :
  (2 <= x < 32)%N -> utf8_lead (0xC0 + x) = LeadSeq 1 x 0x80 0xBF.
Proof.
  intros H. unfold utf8_lead. compare_octets. f_equal. lia.
Qed.

Lemma utf8_lead_three (x : N) :
  (x < 16)%N ->
  utf8_lead (0xE0 + x)
    = LeadSeq 2 x (if N.eqb x 0 then 0xA0 else 0x80)
                  (if N.eqb x 13 then 0x9F else 0xBF).
Proof.
  intros H. unfold utf8_lead. compare_octets; f_equal; lia.
Qed.

Lemma utf8_lead_four (x : N) :
  (x < 5)%N ->
  utf8_lead (0xF0 + x)
    = LeadSeq 3 x (if N.eqb x 0 then 0x90 else 0x80)
                  (if N.eqb x 4 then 0x8F else 0xBF).
Proof.
  intros H. unfold utf8_lead. compare_octets; f_equal; lia.
Qed.

Lemma utf8_decode_first (replace : bool) (b : N) (s : list N) :
  utf8_decode replace None (b :: s) =
    match utf8_lead b with
    | LeadChar c => option_map (cons c) (utf8_decode replace None s)
    | LeadSeq need acc lo hi =>
        utf8_decode replace (Some (need, acc, lo, hi)) s
    | LeadBad =>
        if replace
        then option_map (cons REPLACEMENT) (utf8_decode replace None s)
        else None
    end.
Proof.
  cbn [utf8_decode andb]. cbn [app].
  destruct (utf8_lead b); cbn; try reflexivity.
  - now destruct (utf8_decode replace None s).
  - now destruct (utf8_decode replace _ s).
  - destruct replace; [|reflexivity].
    now destruct (utf8_decode true None s).
Qed.

Lemma utf8_decode_last (replace : bool) (acc lo hi b : N) (s : list N) :
  in_range lo hi b = true ->
  utf8_decode replace (Some (1, acc, lo, hi)) (b :: s)
    = option_map (cons (acc * 64 + (b - 0x80))%N)
                 (utf8_decode replace None s).
Proof. intros H. cbn [utf8_decode]. now rewrite H. Qed.

Lemma utf8_decode_more (replace : bool) (n : nat) (acc lo hi b : N)
    (s : list N) :
  in_range lo hi b = true ->
  utf8_decode replace (Some (S (S n), acc, lo, hi)) (b :: s)
    = utf8_decode replace
        (Some (S n, (acc * 64 + (b - 0x80))%N, 0x80%N, 0xBF%N)) s.
Proof. intros H. cbn [utf8_decode]. now rewrite H. Qed.

(** The quotients and remainders of [c] by 64, as numbers with their
    equations. *)
Ltac by_sixes c :=
  try replace (c / 4096)%N with (c / 64 / 64)%N in *
    by (rewrite N.Div0.div_div; reflexivity);
  try replace (c / 262144)%N with (c / 64 / 64 / 64)%N in *
    by (rewrite !N.Div0.div_div; reflexivity);
  pose proof (N.div_mod c 64 ltac:(discriminate));
  pose proof (N.mod_lt c 64 ltac:(discriminate));
  pose proof (N.div_mod (c / 64) 64 ltac:(discriminate));
  pose proof (N.mod_lt (c / 64) 64 ltac:(discriminate));
  pose proof (N.div_mod (c / 64 / 64) 64 ltac:(discriminate));
  pose proof (N.mod_lt (c / 64 / 64) 64 ltac:(discriminate));
  forget_divmod.

(** [Some a = Some b] read as [a = b], the terms left as they are. *)
Ltac same_some :=
  let E := fresh "E" in
  intros E;
  apply (f_equal (fun o => match o with Some x => x | None => [] end)) in E;
  cbv beta iota in E; subst.

Ltac in_range_holds :=
  unfold in_range; apply andb_true_iff; split; apply N.leb_le;
  compare_octets; lia.

(** The octets of a character decode to the character. *)
Lemma utf8_decode_char (replace : bool) (c : N) (enc rest : list N) :
  utf8_encode_char c = Some enc ->
  utf8_decode replace None (enc ++ rest)
    = option_map (cons c) (utf8_decode replace None rest).
Proof.
  unfold utf8_encode_char.
  destruct (N.ltb_spec c 0x80) as [H1|H1].
  { same_some. cbn [app].
    now rewrite utf8_decode_first, (utf8_lead_ascii H1). }
  destruct (N.ltb_spec c 0x800) as [H2|H2].
  { same_some. cbn [app]. by_sixes c.
    rewrite utf8_decode_first, utf8_lead_two by lia.
    rewrite utf8_decode_last by in_range_holds.
    do 2 f_equal. lia. }
  destruct (in_range 0xD800 0xDFFF c) eqn:Hs; [discriminate|].
  assert (Hsur : (c < 0xD800 \/ 0xDFFF < c)%N).
  { unfold in_range in Hs. apply andb_false_iff in Hs as [Hs|Hs];
      apply N.leb_gt in Hs; lia. }
  clear Hs.
  destruct (N.ltb_spec c 0x10000) as [H3|H3].
  { same_some. cbn [app]. by_sixes c.
    rewrite utf8_decode_first, utf8_lead_three by lia.
    rewrite utf8_decode_more by in_range_holds.
    rewrite utf8_decode_last by in_range_holds.
    do 2 f_equal. lia. }
  destruct (N.ltb_spec c 0x110000) as [H4|H4]; [|discriminate].
  same_some. cbn [app]. by_sixes c.
  rewrite utf8_decode_first, utf8_lead_four by lia.
  rewrite utf8_decode_more by in_range_holds.
  rewrite utf8_decode_more by in_range_holds.
  rewrite utf8_decode_last by in_range_holds.
  do 2 f_equal. lia.
Qed.

(** Decoding undoes encoding, errors replaced or not. *)
Lemma utf8_decode_encode (replace : bool) (s : str) :
  forall bs, utf8_encode s = Some bs -> utf8_decode replace None bs = Some s.
Proof.
  induction s as [|c s IH]; cbn [utf8_encode]; intros bs.
  - now intros [= <-].
  - destruct (utf8_encode_char c) as [enc|] eqn:Ec; [|discriminate].
    destruct (utf8_encode s) as [rest|]; [|discriminate].
    intros [= <-]. rewrite (@utf8_decode_char replace c enc rest Ec).
    now rewrite (IH rest eq_refl).
Qed.

Lemma hex_value_ascii (h u : N) : hex_value h = Some u -> (h < 128)%N.
Proof.
  unfold hex_value, in_range.
  destruct (N.leb_spec 48 h), (N.leb_spec h 57), (N.leb_spec 65 h),
    (N.leb_spec h 70), (N.leb_spec 97 h), (N.leb_spec h 102);
    cbn; try discriminate; intros _; lia.
Qed.

Lemma hex_value_not_plus (h u : N) : hex_value h = Some u -> N.eqb h 43 = false.
Proof.
  intros H. destruct (N.eqb_spec h 43) as [->|]; [discriminate|reflexivity].
Qed.

(** An encoding is ASCII, and unquotes to the octets it encodes once its
    ['+'] are spaces. *)
Lemma encodes_ascii (bs : list N) (q : str) :
  encodes bs q -> forallb (fun a => N.ltb a 128) (replace_plus q) = true.
Proof.
  unfold replace_plus.
  induction 1 as [|b bs q Hb Hp Hplus _ IH|bs q _ IH|h1 h2 u v bs q H1 H2 _ IH];
    cbn [map forallb].
  - reflexivity.
  - apply N.eqb_neq in Hplus. rewrite Hplus.
    apply N.ltb_lt in Hb. now rewrite Hb.
  - exact IH.
  - rewrite (hex_value_not_plus _ H1), (hex_value_not_plus _ H2).
    apply hex_value_ascii in H1, H2. apply N.ltb_lt in H1, H2.
    now rewrite H1, H2.
Qed.

Lemma encodes_unquotes (bs : list N) (q : str) :
  encodes bs q -> unquote_to_bytes (replace_plus q) = bs.
Proof.
  unfold replace_plus.
  induction 1 as [|b bs q Hb Hp Hplus _ IH|bs q _ IH|h1 h2 u v bs q H1 H2 _ IH];
    cbn [map unquote_to_bytes].
  - reflexivity.
  - apply N.eqb_neq in Hplus, Hp. now rewrite Hplus, Hp, IH.
  - now rewrite IH.
  - rewrite (hex_value_not_plus _ H1), (hex_value_not_plus _ H2).
    now rewrite H1, H2, IH.
Qed.

Lemma unquote_parts_ascii (s : str) :
  forallb (fun a => N.ltb a 128) s = true ->
  forall run, unquote_parts run s = unquote_run (rev s ++ run).
Proof.
  induction s as [|a s IH]; cbn [forallb unquote_parts rev]; intros H run.
  - reflexivity.
  - apply andb_true_iff in H as [Ha Hs].
    rewrite Ha, (IH Hs), <- app_assoc. reflexivity.
Qed.

(** Whatever percent-encoding of a key the event carries, decoding gives
    the key. *)
Lemma unquote_plus_quoted (key q : str) :
  quoted_key key q -> unquote_plus q = key.
Proof.
  intros (bs & Henc & Hq). unfold unquote_plus.
  rewrite unquote_parts_all, (unquote_parts_ascii _ (encodes_ascii Hq)).
  unfold unquote_run, decode_utf8_replace.
  rewrite app_nil_r, rev_involutive, (encodes_unquotes Hq).
  now rewrite (utf8_decode_encode true _ Henc).
Qed.

(** C8. A notification requests its object under the decoded key -- the key
    of the event passed through [unquote_plus] -- and, if it puts an object,
    puts it under the destination key of the decoded key.  Decoding gives
    back the key of which the event carries a percent-encoding; it turns a
    ['+'] into a space and the escape of an ASCII character into that
    character, wherever they stand. *)
Theorem key_decoded_before_use (env : Env) (r : s3_record) (w : world) :
  (exists tl,
      calls (snd (process_record env r w))
        = calls w ++
          GetObject (bucket_name r) (unquote_plus (object_key r)) :: tl /\
      (tl = [] \/
       exists body,
         tl = [PutObject (bucket_name r)
                         (dest_key_of (unquote_plus (object_key r)))
                         body (lit "application/json")])) /\
  (forall key q, quoted_key key q -> unquote_plus q = key) /\
  (forall a b,
      unquote_plus (a ++ lit "+" ++ b)
        = unquote_plus a ++ lit " " ++ unquote_plus b) /\
  (forall a b h1 h2 u v,
      hex_value h1 = Some u -> hex_value h2 = Some v ->
      (16 * u + v < 128)%N ->
      unquote_plus (a ++ lit "%" ++ [h1; h2] ++ b)
        = unquote_plus a ++ [(16 * u + v)%N] ++ unquote_plus b) /\
  unquote_plus (lit "raw/year%3D2025/month%3d11/a+b%2Bc.gz")
    = lit "raw/year=2025/month=11/a b+c.gz".
Proof.
  split; [|split; [|split; [|split]]].
  - destruct (process_record_calls env r w) as (tl & Hc & Htl).
    exists tl. split; [|exact Htl].
    rewrite Hc. unfold requested. cbn. now rewrite <- app_assoc.
  - apply unquote_plus_quoted.
  - apply unquote_plus_plus.
  - apply unquote_plus_escape.
  - reflexivity.
Qed.

(** ** The properties at work

    The scenarios of the specification, run in the small environment. *)

Import Fixture.

(** Evaluates both sides of a closed goal. *)
Ltac run := vm_compute; first [reflexivity | discriminate].

(** Settles a written-out line: blank, malformed or an object. *)
Ltac settle_line :=
  first
    [ left; run
    | right; left; split; run
    | right; right; eexists; split; run ].

(** Two records with a [user_id]: two lines without it, each with a reading
    of its own, under the key of the partition. *)
Example two_clicks_transformed :
  lambda_handler demo {| Records := Some [file_gz] |} start
    = (Returned status_ok,
       {| calls :=
            [GetObject bucket (lit "raw/year=2025/month=11/day=26/file.gz");
             PutObject bucket
                       (lit "processed/year=2025/month=11/day=26/filejson")
                       (body_of file_json) (lit "application/json")];
          clock_reads := 2 |}).
Proof. run. Qed.

(** A malformed line, an empty line and a record: one line. *)
Example mixed_transformed :
  lambda_handler demo
      {| Records := Some [notification "other/path/data.gz"] |} start
    = (Returned status_ok,
       {| calls :=
            [GetObject bucket (lit "other/path/data.gz");
             PutObject bucket (lit "processed/other/path/datajson")
                       (body_of (jtext
                          "{'a': 1, 'processed_ts': '2025-11-26T12:00:00+00:00'}"))
                       (lit "application/json")];
          clock_reads := 1 |}).
Proof. run. Qed.

(** Three notifications, the second of an object that is not there: the
    first object is transformed, the third is not asked for. *)
Example second_of_three_fails :
  lambda_handler demo
      {| Records := Some [file_gz; notification "raw/missing.gz";
                          notification "other/path/data.gz"] |} start
    = (Raised (ServiceError (lit "NoSuchKey")),
       {| calls :=
            [GetObject bucket (lit "raw/year=2025/month=11/day=26/file.gz");
             PutObject bucket
                       (lit "processed/year=2025/month=11/day=26/filejson")
                       (body_of file_json) (lit "application/json");
             GetObject bucket (lit "raw/missing.gz")];
          clock_reads := 2 |}).
Proof. run. Qed.

(** What the decoder raises: [JSONDecodeError] on what is no document,
    [ValueError] on an integer of more than 4300 digits wherever it stands,
    [RecursionError] on the 995th array or object inside the others. *)
Example loads_raises :
  loads (jtext "{'a':") = Raised JSONDecodeError /\
  loads (jtext "{'a':1} x") = Raised JSONDecodeError /\
  loads (nines 4301) = Raised ValueError /\
  loads (lit "-" ++ nines 4301) = Raised ValueError /\
  loads long_line = Raised ValueError /\
  loads unclosed_line = Raised ValueError /\
  loads (lit "0" ++ nines 4301) = Raised JSONDecodeError /\
  loads (repeat 91%N 994) = Raised JSONDecodeError /\
  loads (repeat 91%N 995) = Raised RecursionError /\
  loads (repeat 91%N 1000) = Raised RecursionError /\
  loads (repeat 91%N 994 ++ repeat 93%N 994) <> Raised RecursionError /\
  loads (jtext "{'n':" ++ nines 4300 ++ jtext "}") <> Raised ValueError.
Proof. repeat split; run. Qed.

(** A long number among records: the record before it is made, the handler
    raises at the number and puts nothing. *)
Example long_number_raises :
  lambda_handler overlong {| Records := Some [notification "raw/long.gz"] |}
                 start
    = (Raised ValueError,
       {| calls := [GetObject bucket (lit "raw/long.gz")];
          clock_reads := 1 |}).
Proof. run. Qed.

(** C1 at a line that holds a record with a [user_id]. *)
Lemma user_id_removed_witness :
  parses_to demo click_line (JDict click) /\
  exists d',
    transform_line demo click_line start
      = (Returned (Some (json_dumps demo (JDict d'))), ticked start) /\
    dict_get (lit "user_id") d' = None /\
    (forall k, k <> lit "user_id" -> k <> lit "processed_ts" ->
               dict_get k d' = dict_get k click) /\
    (dict_get (lit "user_id") click = None ->
     py_pop (JDict click) (lit "user_id") = Returned (JDict click)).
Proof.
  assert (H1 : parses_to demo click_line (JDict click)) by (split; run).
  split; [exact H1|].
  exact (proj1 (user_id_removed demo) click_line click start H1).
Defined.

(** C2 at the same line, read at the first reading of the clock. *)
Lemma processed_ts_stamped_witness :
  parses_to demo click_line (JDict click) /\
  exists d',
    transform_line demo click_line start
      = (Returned (Some (json_dumps demo (JDict d'))),
         {| calls := calls start; clock_reads := S (clock_reads start) |}) /\
    dict_get (lit "processed_ts") d'
      = Some (JStr (isoformat (utc_now demo (clock_reads start)))) /\
    is_iso8601_utc (isoformat (utc_now demo (clock_reads start))) = true.
Proof.
  assert (H1 : parses_to demo click_line (JDict click)) by (split; run).
  split; [exact H1|].
  exact (proj1 (processed_ts_stamped demo) click_line click start H1).
Defined.





(** C6 at a missing object, at a stream that is not gzip, and at a bucket
    that refuses writes. *)
Lemma failure_stops_batch_witness :
  (* a read that fails *)
  for_records demo [file_gz] start
    = (Returned tt, snd (for_records demo [file_gz] start)) /\
  fails_with demo (notification "raw/missing.gz")
             (snd (for_records demo [file_gz] start))
             (ServiceError (lit "NoSuchKey")) /\
  (exists w2,
      process_record demo (notification "raw/missing.gz")
                     (snd (for_records demo [file_gz] start))
        = (Raised (ServiceError (lit "NoSuchKey")), w2) /\
      lambda_handler demo
          {| Records := Some ([file_gz] ++ notification "raw/missing.gz"
                                :: [notification "other/path/data.gz"]) |}
          start
        = (Raised (ServiceError (lit "NoSuchKey")), w2) /\
      reads (calls w2)
        = reads (calls start) ++
          map source_of ([file_gz] ++ [notification "raw/missing.gz"])) /\
  (* a stream that is not gzip *)
  fails_with demo (notification "raw/corrupt.gz") start
             (ServiceError (lit "BadGzipFile")) /\
  (exists w2,
      process_record demo (notification "raw/corrupt.gz") start
        = (Raised (ServiceError (lit "BadGzipFile")), w2) /\
      lambda_handler demo
          {| Records := Some ([] ++ notification "raw/corrupt.gz"
                                :: [file_gz]) |} start
        = (Raised (ServiceError (lit "BadGzipFile")), w2) /\
      reads (calls w2)
        = reads (calls start) ++
          map source_of ([] ++ [notification "raw/corrupt.gz"])) /\
  (* a write that is refused *)
  fails_with demo_read_only file_gz start
             (ServiceError (lit "AccessDenied")) /\
  (exists w2,
      process_record demo_read_only file_gz start
        = (Raised (ServiceError (lit "AccessDenied")), w2) /\
      lambda_handler demo_read_only
          {| Records := Some ([] ++ file_gz
                                :: [notification "other/path/data.gz"]) |}
          start
        = (Raised (ServiceError (lit "AccessDenied")), w2) /\
      reads (calls w2)
        = reads (calls start) ++ map source_of ([] ++ [file_gz])).
Proof.
  assert (H1 : for_records demo [file_gz] start
               = (Returned tt, snd (for_records demo [file_gz] start)))
    by run.
  assert (H2 : fails_with demo (notification "raw/missing.gz")
                 (snd (for_records demo [file_gz] start))
                 (ServiceError (lit "NoSuchKey")))
    by (apply read_fails; run).
  assert (H3 : fails_with demo (notification "raw/corrupt.gz") start
                 (ServiceError (lit "BadGzipFile")))
    by (apply decompression_fails with (raw_body := corrupt); run).
  assert (H4 : fails_with demo_read_only file_gz start
                 (ServiceError (lit "AccessDenied"))).
  { apply write_fails
      with (raw_body := body_of two_clicks) (raw := body_of two_clicks)
           (text := two_clicks)
           (out := jtext "{'x': 1, 'processed_ts': '2025-11-26T12:00:00+00:00'}")
           (outs := [jtext "{'x': 2, 'processed_ts': '2025-11-26T12:00:00.250000+00:00'}"])
           (w' := {| calls := [GetObject bucket
                       (lit "raw/year=2025/month=11/day=26/file.gz")];
                     clock_reads := 2 |})
           (body := body_of file_json); run. }
  split; [exact H1|]. split; [exact H2|]. split.
  { exact (proj2 (failure_stops_batch demo) [file_gz]
             (notification "raw/missing.gz")
             [notification "other/path/data.gz"] start _ _ H1 H2). }
  split; [exact H3|]. split.
  { exact (proj2 (failure_stops_batch demo) []
             (notification "raw/corrupt.gz") [file_gz] start start _
             eq_refl H3). }
  split; [exact H4|].
  exact (proj2 (failure_stops_batch demo_read_only) [] file_gz
           [notification "other/path/data.gz"] start start _ eq_refl H4).
Defined.

(** C7 at a batch of three notifications that all go through. *)
Lemma returns_status_ok_witness :
  lambda_handler demo
      {| Records := Some [file_gz; notification "raw/empty.gz";
                          notification "other/path/data.gz"] |} start
    = (Returned (JDict [(lit "status", JStr (lit "ok"))]),
       snd (lambda_handler demo
              {| Records := Some [file_gz; notification "raw/empty.gz";
                                  notification "other/path/data.gz"] |}
              start)) /\
  JDict [(lit "status", JStr (lit "ok"))] = status_ok.
Proof.
  assert (H : lambda_handler demo
                {| Records := Some [file_gz; notification "raw/empty.gz";
                                    notification "other/path/data.gz"] |}
                start
              = (Returned (JDict [(lit "status", JStr (lit "ok"))]),
                 snd (lambda_handler demo
                        {| Records := Some [file_gz;
                                            notification "raw/empty.gz";
                                            notification "other/path/data.gz"] |}
                        start))) by run.
  split; [exact H|].
  exact (@returns_status_ok demo _ start _ _ H).
Defined.

(** One step of showing a written-out text to encode written-out octets. *)
Ltac encodes_step :=
  first
    [ apply encodes_nil
    | apply encodes_plus
    | apply encodes_literal; [reflexivity|discriminate|discriminate|]
    | match goal with
      | |- encodes (?b :: _) (_ :: ?h1 :: ?h2 :: _) =>
          let u := eval vm_compute in (b / 16)%N in
          let v := eval vm_compute in (b mod 16)%N in
          change b with (16 * u + v)%N;
          apply (@encodes_escape h1 h2 u v); [reflexivity|reflexivity|]
      end ].

(** C8 at a key with an escaped ['='] and ['+'], a space written ['+'] and
    the two octets of a letter outside ASCII. *)
Lemma key_decoded_before_use_witness :
  quoted_key (lit "raw/day=26/a b+" ++ [233%N] ++ lit ".gz")
             (lit "raw/day%3D26/a+b%2B%c3%A9.gz") /\
  unquote_plus (lit "raw/day%3D26/a+b%2B%c3%A9.gz")
    = lit "raw/day=26/a b+" ++ [233%N] ++ lit ".gz" /\
  hex_value 51 = Some 3%N /\ hex_value 68 = Some 13%N /\
  (16 * 3 + 13 < 128)%N /\
  unquote_plus (lit "raw/year" ++ lit "%" ++ [51; 68]%N ++ lit "2025")
    = unquote_plus (lit "raw/year") ++ [(16 * 3 + 13)%N] ++
      unquote_plus (lit "2025").
Proof.
  assert (H1 : quoted_key (lit "raw/day=26/a b+" ++ [233%N] ++ lit ".gz")
                          (lit "raw/day%3D26/a+b%2B%c3%A9.gz")).
  { eexists. split; [vm_compute; reflexivity|].
    vm_compute. repeat encodes_step. }
  split; [exact H1|]. split.
  { exact (proj1 (proj2 (key_decoded_before_use demo file_gz start)) _ _ H1). }
  split; [reflexivity|]. split; [reflexivity|]. split; [reflexivity|].
  exact (proj1 (proj2 (proj2 (proj2
           (key_decoded_before_use demo file_gz start))))
           (lit "raw/year") (lit "2025") 51%N 68%N 3%N 13%N
           eq_refl eq_refl eq_refl).
Defined.

(** C9 at an object whose first line is a number, second in a batch of
    three. *)
Lemma non_object_line_raises_witness :
  for_records demo [file_gz] start
    = (Returned tt, snd (for_records demo [file_gz] start)) /\
  s3_get_object demo (calls (snd (for_records demo [file_gz] start)))
                (bucket_name (notification "raw/a+b.gz"))
                (unquote_plus (object_key (notification "raw/a+b.gz")))
    = Returned (body_of number_first) /\
  gzip_read demo (body_of number_first) = Returned (body_of number_first) /\
  decode_utf8 (body_of number_first) = Returned number_first /\
  splitlines number_first = [] ++ jtext "7" :: [jtext "{'a':1}"] /\
  only_objects demo [] /\
  parses_to demo (jtext "7") (JInt 7) /\
  is_dict (JInt 7) = false /\
  lambda_handler demo
      {| Records := Some ([file_gz] ++ notification "raw/a+b.gz"
                            :: [notification "other/path/data.gz"]) |} start
    = (Raised AttributeError,
       {| calls := calls (snd (for_records demo [file_gz] start)) ++
                   [GetObject bucket (lit "raw/a b.gz")];
          clock_reads :=
            clock_reads (snd (for_records demo [file_gz] start)) + 0 |}).
Proof.
  assert (H1 : for_records demo [file_gz] start
               = (Returned tt, snd (for_records demo [file_gz] start)))
    by run.
  assert (H2 : s3_get_object demo
                 (calls (snd (for_records demo [file_gz] start)))
                 (bucket_name (notification "raw/a+b.gz"))
                 (unquote_plus (object_key (notification "raw/a+b.gz")))
               = Returned (body_of number_first)) by run.
  assert (H3 : gzip_read demo (body_of number_first)
               = Returned (body_of number_first)) by run.
  assert (H4 : decode_utf8 (body_of number_first) = Returned number_first)
    by run.
  assert (H5 : splitlines number_first
               = [] ++ jtext "7" :: [jtext "{'a':1}"]) by run.
  assert (H6 : only_objects demo []) by constructor.
  assert (H7 : parses_to demo (jtext "7") (JInt 7)) by (split; run).
  assert (H8 : is_dict (JInt 7) = false) by reflexivity.
  repeat (split; [assumption|]).
  exact (@non_object_line_raises demo [file_gz] (notification "raw/a+b.gz")
           [notification "other/path/data.gz"] start _ _ _ _ _ _ _ _
           H1 H2 H3 H4 H5 H6 H7 H8).
Defined.

(** * Further properties of the handler *)

(** ** Where objects are written *)

Lemma subseq_nil_l {A : Type} (l : list A) : subseq [] l.
Proof. induction l; constructor; assumption. Qed.

Section WritesFollow.

Variable env : Env.

Lemma process_record_target (r : s3_record) (w : world) :
  exists news,
    writes (calls (snd (process_record env r w))) = writes (calls w) ++ news /\
    subseq (map target news) [destination_of r] /\
    Forall (fun x => content_type x = lit "application/json") news.
Proof.
  destruct (process_record_calls env r w) as (tl & -> & Htl).
  unfold requested. cbn [calls]. rewrite !writes_app. cbn [writes app].
  rewrite app_nil_r.
  destruct Htl as [->|[body ->]]; cbn [writes].
  - exists []. repeat split; [|constructor].
    apply subseq_nil_l.
  - eexists. split; [reflexivity|]. split.
    + cbn. apply subseq_take. constructor.
    + repeat constructor.
Qed.

Lemma for_records_target (records : list s3_record) :
  forall w,
    exists news,
      writes (calls (snd (for_records env records w)))
        = writes (calls w) ++ news /\
      subseq (map target news) (map destination_of records) /\
      Forall (fun x => content_type x = lit "application/json") news.
Proof.
  induction records as [|r records IH]; intros w; cbn [for_records map].
  - exists []. rewrite app_nil_r. repeat split; constructor.
  - unfold bind.
    destruct (process_record_target r w) as (n1 & H1 & S1 & F1).
    destruct (process_record env r w) as [[[]|e] w1]; cbn [snd] in H1.
    + destruct (IH w1) as (n2 & H2 & S2 & F2).
      exists (n1 ++ n2). rewrite H2, H1, <- app_assoc.
      split; [reflexivity|]. split; [|now apply Forall_app].
      rewrite map_app.
      inversion S1 as [|x s l S1' E1 E2|x s l S1' E1 E2]; subst.
      * inversion S1'; subst. cbn. now apply subseq_take.
      * inversion S1'; subst. cbn. now apply subseq_skip.
    + cbn [snd]. exists n1. split; [exact H1|]. split; [|exact F1].
      inversion S1 as [|x s l S1' E1 E2|x s l S1' E1 E2]; subst.
      * inversion S1'; subst. apply subseq_take. apply subseq_nil_l.
      * inversion S1'; subst. apply subseq_nil_l.
Qed.

End WritesFollow.

(** X1. Whatever the event and however the handler ends, the objects it has
    put follow the notifications: at most one for each, in their order, into
    the notification's own bucket under the destination key of its decoded
    key, with content type [application/json].  Nothing else is written. *)
Theorem writes_follow_notifications (env : Env) (ev : event) (w : world) :
  exists news,
    writes (calls (snd (lambda_handler env ev w))) = writes (calls w) ++ news /\
    subseq (map target news) (map destination_of (event_records ev)) /\
    Forall (fun x => content_type x = lit "application/json") news.
Proof.
  rewrite lambda_handler_calls. apply for_records_target.
Qed.

(** ** The destination key, further *)

Lemma dest_key_of_relocated (k : str) :
  dest_key_of k =
    if endswith (lit ".gz") (relocated k)
    then slice_drop_last 3 (relocated k) ++ lit "json"
    else relocated k.
Proof. reflexivity. Qed.

Lemma endswith_app (p stem : str) : endswith p (stem ++ p) = true.
Proof. apply endswith_iff. now exists stem. Qed.

(** A suffix of three characters that ends the key under ["processed/"]
    ends what follows ["processed/"]. *)
Lemma endswith_gz_processed (x : str) :
  endswith (lit ".gz") (lit "processed/" ++ x) = true ->
  exists stem, x = stem ++ lit ".gz".
Proof.
  intros H. apply endswith_iff.
  destruct x as [|a [|b [|c x]]]; try (cbn in H; discriminate).
  revert H. unfold endswith. rewrite !length_app.
  change (List.length (lit "processed/")) with 10.
  change (List.length (lit ".gz")) with 3.
  cbn [List.length]. cbn [Nat.leb].
  replace (10 + S (S (S (List.length x))) - 3)
    with (10 + (S (S (S (List.length x))) - 3)) by lia.
  change (lit "processed/") with ([112; 114; 111; 99; 101; 115; 115; 101; 100; 47]%N).
  rewrite skipn_app. cbn [List.length].
  replace (10 + (S (S (S (List.length x))) - 3) - 10)
    with (S (S (S (List.length x))) - 3) by lia.
  rewrite skipn_all2 by (cbn [List.length]; lia).
  cbn [app]. intros H. apply andb_true_iff in H as [_ H].
  apply andb_true_iff. split; [reflexivity|exact H].
Qed.

Lemma relocated_processed (k : str) :
  exists x, relocated k = lit "processed/" ++ x.
Proof. unfold relocated. destruct (startswith _ k); eauto. Qed.

Lemma dest_key_processed (k : str) :
  exists y, dest_key_of k = lit "processed/" ++ y.
Proof.
  rewrite dest_key_of_relocated.
  destruct (relocated_processed k) as [x Hx]. rewrite Hx.
  destruct (endswith (lit ".gz") (lit "processed/" ++ x)) eqn:E; [|eauto].
  apply endswith_gz_processed in E as [stem ->].
  exists (stem ++ lit "json").
  rewrite app_assoc. change 3 with (List.length (lit ".gz")).
  now rewrite slice_drop_last_app, app_assoc.
Qed.

Lemma subseq_Forall {A : Type} (P : A -> Prop) (s l : list A) :
  subseq s l -> Forall P l -> Forall P s.
Proof.
  induction 1 as [|x s l _ IH|x s l _ IH]; intros H.
  - constructor.
  - inversion H; subst. constructor; auto.
  - inversion H; subst. auto.
Qed.

(** X2. Every destination key starts with ["processed/"] and so none
    starts with ["raw/"]; every object the handler puts is under
    ["processed/"], whatever the keys of the event. *)
Theorem writes_under_processed :
  (forall k,
      startswith (lit "processed/") (dest_key_of k) = true /\
      startswith (lit "raw/") (dest_key_of k) = false) /\
  (forall env ev w,
      exists news,
        writes (calls (snd (lambda_handler env ev w)))
          = writes (calls w) ++ news /\
        Forall (fun x => startswith (lit "processed/") (snd (target x)) = true)
               news).
Proof.
  assert (Hkey : forall k,
             startswith (lit "processed/") (dest_key_of k) = true /\
             startswith (lit "raw/") (dest_key_of k) = false).
  { intros k. destruct (dest_key_processed k) as [y ->]. split.
    - apply startswith_iff. now exists y.
    - reflexivity. }
  split; [exact Hkey|].
  intros env ev w.
  destruct (for_records_target env (event_records ev) w)
    as (news & Hw & Hs & _).
  exists news. rewrite lambda_handler_calls. split; [exact Hw|].
  apply (Forall_map target
           (fun t => startswith (lit "processed/") (snd t) = true)).
  apply (@subseq_Forall _
           (fun t => startswith (lit "processed/") (snd t) = true) _ _ Hs).
  apply Forall_map. apply Forall_forall. intros r _. apply Hkey.
Qed.

(** A prefix that ends with a character the suffix lacks is looked for in
    the stem alone. *)
Lemma startswith_stem (p0 : str) (c : N) (suf : str) :
  ~ In c suf ->
  forall stem,
    startswith (p0 ++ [c]) (stem ++ suf) = startswith (p0 ++ [c]) stem.
Proof.
  intros Hc. induction p0 as [|x p0 IH]; intros [|a stem]; cbn [app].
  - destruct suf as [|y suf]; [reflexivity|]. cbn.
    destruct (N.eqb_spec c y) as [->|]; [|reflexivity].
    exfalso. apply Hc. now left.
  - reflexivity.
  - destruct (startswith (x :: p0 ++ [c]) suf) eqn:E; [|reflexivity].
    apply startswith_iff in E as [rest ->].
    exfalso. apply Hc. cbn. right. apply in_or_app. left.
    apply in_or_app. right. now left.
  - cbn [startswith]. now rewrite IH.
Qed.

Lemma relocated_app (stem suf : str) :
  ~ In 47%N suf -> relocated (stem ++ suf) = relocated stem ++ suf.
Proof.
  intros H. unfold relocated.
  change (lit "raw/") with (lit "raw" ++ [47%N]).
  rewrite (@startswith_stem (lit "raw") 47%N suf H).
  destruct (startswith (lit "raw" ++ [47%N]) stem) eqn:E.
  - apply startswith_iff in E as [rest ->]. unfold slice_from.
    cbn. reflexivity.
  - now rewrite <- app_assoc.
Qed.

Lemma relocated_raw (rest : str) :
  startswith (lit "raw/") rest = false ->
  relocated (lit "raw/" ++ rest) = relocated rest.
Proof.
  intros H. unfold relocated at 2. rewrite H. reflexivity.
Qed.

Lemma dest_key_gz (stem : str) :
  dest_key_of (stem ++ lit ".gz") = relocated stem ++ lit "json".
Proof.
  rewrite dest_key_of_relocated, relocated_app.
  - rewrite endswith_app. change 3 with (List.length (lit ".gz")).
    now rewrite slice_drop_last_app.
  - cbn. intros [H|[H|[H|[]]]]; discriminate.
Qed.

Lemma dest_key_json (stem : str) :
  dest_key_of (stem ++ lit "json") = relocated stem ++ lit "json".
Proof.
  rewrite dest_key_of_relocated, relocated_app.
  - destruct (endswith (lit ".gz") (relocated stem ++ lit "json")) eqn:E;
      [|reflexivity].
    apply endswith_iff in E as [st E].
    change (lit "json") with (lit "jso" ++ [110%N]) in E.
    change (lit ".gz") with (lit ".g" ++ [122%N]) in E.
    rewrite !app_assoc in E. apply app_inj_tail in E as [_ E].
    discriminate.
  - cbn. intros [H|[H|[H|[H|[]]]]]; discriminate.
Qed.

(** X3. The mapping of keys is not one to one.  A key that does not start
    with ["raw/"] has the destination of the same key under ["raw/"], and a
    key that ends with [".gz"] has the destination of the same key ending
    with ["json"]: the objects of two different notifications can be put
    under one key. *)
Theorem dest_keys_collide :
  (forall rest,
      startswith (lit "raw/") rest = false ->
      lit "raw/" ++ rest <> rest /\
      dest_key_of (lit "raw/" ++ rest) = dest_key_of rest) /\
  (forall stem,
      stem ++ lit ".gz" <> stem ++ lit "json" /\
      dest_key_of (stem ++ lit ".gz") = dest_key_of (stem ++ lit "json")).
Proof.
  split.
  - intros rest H. split.
    + intros E. apply (f_equal (@List.length _)) in E.
      rewrite length_app in E. cbn in E. lia.
    + now rewrite !dest_key_of_relocated, relocated_raw.
  - intros stem. split.
    + intros E. apply app_inv_head in E. discriminate.
    + now rewrite dest_key_gz, dest_key_json.
Qed.

Lemma endswith_last (c l : N) (s : str) :
  endswith [c] (s ++ [l]) = N.eqb l c.
Proof.
  unfold endswith. rewrite length_app. cbn [List.length].
  replace (List.length s + 1 - 1) with (List.length s) by lia.
  replace (1 <=? List.length s + 1) with true
    by (symmetry; apply Nat.leb_le; lia).
  rewrite skipn_app, skipn_all, Nat.sub_diag. cbn.
  now rewrite andb_true_r.
Qed.

(** Before a key that is not empty, what stands in front does not decide
    the last character. *)
Lemma endswith_char_app (c : N) (p y : str) :
  endswith [c] p = false ->
  endswith [c] (p ++ y) = endswith [c] y.
Proof.
  intros Hp. destruct y as [|a y] using rev_ind.
  - rewrite app_nil_r. now rewrite Hp.
  - now rewrite app_assoc, !endswith_last.
Qed.

Lemma endswith_same_tail (a x s : str) :
  endswith (a ++ s) (x ++ s) = endswith a x.
Proof.
  apply Bool.eq_iff_eq_true. rewrite !endswith_iff. split.
  - intros [st E]. rewrite app_assoc in E. apply app_inv_tail in E.
    now exists st.
  - intros [st ->]. exists st. now rewrite app_assoc.
Qed.

Lemma relocated_last_char (c : N) (stem : str) :
  c <> 47%N ->
  endswith [c] (relocated stem) = endswith [c] stem.
Proof.
  intros Hc.
  assert (Hslash : forall p, endswith [c] (p ++ [47%N]) = false).
  { intros p. rewrite endswith_last. apply N.eqb_neq. congruence. }
  unfold relocated. destruct (startswith (lit "raw/") stem) eqn:E.
  - apply startswith_iff in E as [rest ->]. unfold slice_from.
    replace (skipn (List.length (lit "raw/")) (lit "raw/" ++ rest))
      with rest by reflexivity.
    change (lit "processed/") with (lit "processed" ++ [47%N]).
    change (lit "raw/") with (lit "raw" ++ [47%N]).
    now rewrite !endswith_char_app by apply Hslash.
  - change (lit "processed/") with (lit "processed" ++ [47%N]).
    now rewrite endswith_char_app by apply Hslash.
Qed.

(** X4. The destination of a key that ends with [".gz"] ends with
    [".json"] only where the key ends with ["..gz"]: the three characters
    are cut and ["json"] is put without a dot, so that [file.gz] does not
    become [file.json]. *)
Theorem gz_key_gets_no_dot (stem : str) :
  endswith (lit ".json") (dest_key_of (stem ++ lit ".gz"))
    = endswith (lit ".") stem /\
  endswith (lit "json") (dest_key_of (stem ++ lit ".gz")) = true.
Proof.
  rewrite dest_key_gz. split.
  - change (lit ".json") with (lit "." ++ lit "json").
    rewrite endswith_same_tail.
    apply relocated_last_char. discriminate.
  - apply endswith_app.
Qed.

(** ** The text written *)

Lemma utf8_encode_char_octets (c : N) (enc : list N) :
  utf8_encode_char c = Some enc -> Forall (fun b => (b < 256)%N) enc.
Proof.
  unfold utf8_encode_char.
  destruct (N.ltb_spec c 0x80) as [H1|H1].
  { same_some. repeat constructor. lia. }
  destruct (N.ltb_spec c 0x800) as [H2|H2].
  { same_some. by_sixes c. repeat constructor; lia. }
  destruct (in_range 0xD800 0xDFFF c); [discriminate|].
  destruct (N.ltb_spec c 0x10000) as [H3|H3].
  { same_some. by_sixes c. repeat constructor; lia. }
  destruct (N.ltb_spec c 0x110000) as [H4|H4]; [|discriminate].
  same_some. by_sixes c. repeat constructor; lia.
Qed.

Lemma utf8_encode_octets (s : str) :
  forall bs, utf8_encode s = Some bs -> Forall (fun b => (b < 256)%N) bs.
Proof.
  induction s as [|c s IH]; cbn [utf8_encode]; intros bs.
  - intros [= <-]. constructor.
  - destruct (utf8_encode_char c) as [enc|] eqn:Ec; [|discriminate].
    destruct (utf8_encode s) as [rest|]; [|discriminate].
    intros [= <-]. apply Forall_app. split.
    + exact (utf8_encode_char_octets c Ec).
    + now apply IH.
Qed.

Lemma to_N_byte_of (n : N) : (n < 256)%N -> Byte.to_N (byte_of n) = n.
Proof.
  intros H. unfold byte_of. destruct (Byte.of_N n) as [b|] eqn:E.
  - now apply Byte.to_of_N.
  - apply Byte.of_N_None_iff in E. lia.
Qed.

Lemma octets_kept (bs : list N) :
  Forall (fun b => (b < 256)%N) bs -> map Byte.to_N (map byte_of bs) = bs.
Proof.
  induction 1 as [|b bs Hb _ IH]; cbn; [reflexivity|].
  now rewrite to_N_byte_of, IH.
Qed.

Lemma decode_encode_utf8 (s : str) (b : bytes) :
  encode_utf8 s = Returned b -> decode_utf8 b = Returned s.
Proof.
  unfold encode_utf8, decode_utf8.
  destruct (utf8_encode s) as [bs|] eqn:E; [|discriminate].
  intros [= <-]. rewrite (octets_kept (utf8_encode_octets s E)).
  now rewrite (utf8_decode_encode false s E).
Qed.

Lemma stamped_dumps (env : Env) (ds : list dict) (t : nat) :
  Forall (fun out => exists d, out = json_dumps env (JDict d))
         (stamped env t ds).
Proof.
  revert t; induction ds as [|d ds IH]; intros t; cbn; constructor.
  - eexists. reflexivity.
  - apply IH.
Qed.

(** A notification that puts an object has found a record, and puts the
    dumps of records. *)
Lemma process_record_write_lines (env : Env) (r : s3_record) (w : world)
    (x : str * str * bytes * str) :
  writes (calls (snd (process_record env r w))) = writes (calls w) ++ [x] ->
  exists out outs,
    encode_utf8 (join [10%N] (out :: outs)) = Returned (body_written x) /\
    Forall (fun out => exists d, out = json_dumps env (JDict d)) (out :: outs).
Proof.
  intros Hw. destruct x as [[[b k] body] ct].
  pose proof Hw as Hw'.
  apply process_record_write in Hw'
    as (raw_body & raw & text & Hg & Hz & Hd & Hobj & Henc).
  pose proof (stamped_dumps env (objects_of env (splitlines text))
                            (clock_reads w)) as Hdumps.
  destruct (stamped env (clock_reads w) (objects_of env (splitlines text)))
    as [|out outs] eqn:Hs; [|exists out, outs; split; assumption].
  exfalso.
  assert (Hnone : objects_of env (splitlines text) = []).
  { destruct (objects_of env (splitlines text)); [reflexivity|discriminate]. }
  rewrite process_record_stages, Hg, Hz, Hd in Hw.
  rewrite (transform_lines_only_objects Hobj), Hnone in Hw.
  cbn in Hw. rewrite writes_app in Hw. cbn in Hw.
  rewrite app_nil_r in Hw.
  apply (f_equal (@List.length _)) in Hw. rewrite length_app in Hw.
  cbn in Hw. lia.
Qed.

(** X5. What [encode] makes of a text, [decode] reads back as that text.
    Hence every object the handler puts is UTF-8 that decodes, without an
    error, to the dumps of one or more records joined by single line feeds:
    nothing stands before the first dump or after the last. *)
Theorem written_text_decodes :
  (forall s b, encode_utf8 s = Returned b -> decode_utf8 b = Returned s) /\
  (forall env ev w,
      exists news,
        writes (calls (snd (lambda_handler env ev w)))
          = writes (calls w) ++ news /\
        Forall (fun x => exists out outs,
                    decode_utf8 (body_written x)
                      = Returned (join [10%N] (out :: outs)) /\
                    Forall (fun l => exists d, l = json_dumps env (JDict d))
                           (out :: outs)) news).
Proof.
  split; [exact decode_encode_utf8|].
  intros env ev w. rewrite lambda_handler_calls.
  apply for_records_puts. intros r w0 x Hw.
  apply process_record_write_lines in Hw as (out & outs & Henc & Hdumps).
  exists out, outs. split; [now apply decode_encode_utf8|exact Hdumps].
Qed.

(** ** The fields of a record *)

Lemma keys_pop (k : str) (d : dict) :
  keys (dict_pop k d) = filter (fun k' => negb (str_eqb k' k)) (keys d).
Proof.
  unfold keys, dict_pop. induction d as [|[k' v] d IH]; cbn; [reflexivity|].
  destruct (str_eqb k' k); cbn; now rewrite IH.
Qed.

Lemma keys_set (k : str) (v : json) (d : dict) :
  keys (dict_set k v d)
    = if existsb (fun k' => str_eqb k' k) (keys d)
      then keys d else keys d ++ [k].
Proof.
  unfold keys. induction d as [|[k' v'] d IH]; cbn; [reflexivity|].
  destruct (str_eqb k' k) eqn:E; cbn.
  - apply str_eqb_eq in E. now subst.
  - rewrite IH. now destruct (existsb _ (map fst d)).
Qed.

Lemma keys_set_NoDup (k : str) (v : json) (d : dict) :
  NoDup (keys d) -> NoDup (keys (dict_set k v d)).
Proof.
  intros H. rewrite keys_set.
  destruct (existsb (fun k' => str_eqb k' k) (keys d)) eqn:E; [exact H|].
  apply NoDup_app; [exact H|repeat constructor; auto|].
  intros a Ha [<-|[]].
  assert (existsb (fun k' => str_eqb k' k) (keys d) = true); [|congruence].
  apply existsb_exists. exists k. split; [exact Ha|apply str_eqb_refl].
Qed.

(** X6. The record made of an object has the fields of the object in their
    order, [user_id] left out, and [processed_ts] where it was or, if new,
    last; if the object names no field twice, neither does the record. *)
Theorem fields_keep_order (env : Env) (line : str) (d : dict) (w : world) :
  parses_to env line (JDict d) ->
  exists d',
    transform_line env line w
      = (Returned (Some (json_dumps env (JDict d'))), ticked w) /\
    keys d'
      = (let kept := filter (fun k => negb (str_eqb k (lit "user_id")))
                            (keys d) in
         if existsb (fun k => str_eqb k (lit "processed_ts")) kept
         then kept else kept ++ [lit "processed_ts"]) /\
    (NoDup (keys d) -> NoDup (keys d')).
Proof.
  intros H. eexists. split; [apply (transform_line_object w H)|]. split.
  - now rewrite keys_set, keys_pop.
  - intros Hd. apply keys_set_NoDup. rewrite keys_pop.
    now apply NoDup_filter.
Qed.

(** ** White space around a line *)

Lemma lstrip_spaces (pre x : str) :
  forallb is_space pre = true -> lstrip (pre ++ x) = lstrip x.
Proof.
  induction pre as [|c pre IH]; cbn [forallb app lstrip]; [reflexivity|].
  intros H. apply andb_true_iff in H as [Hc Hp]. now rewrite Hc, IH.
Qed.

Lemma lstrip_app (a b : str) :
  lstrip (a ++ b) = if forallb is_space a then lstrip b else lstrip a ++ b.
Proof.
  induction a as [|c a IH]; cbn [forallb app lstrip]; [reflexivity|].
  destruct (is_space c); [exact IH|reflexivity].
Qed.

Lemma lstrip_all_spaces (a : str) :
  forallb is_space a = true -> lstrip a = [].
Proof.
  intros H. rewrite <- (app_nil_r a). now rewrite lstrip_spaces.
Qed.

Lemma forallb_reversed {A : Type} (f : A -> bool) (l : list A) :
  forallb f (rev l) = forallb f l.
Proof.
  induction l as [|a l IH]; cbn; [reflexivity|].
  rewrite forallb_app, IH. cbn. rewrite andb_true_r. apply andb_comm.
Qed.

Lemma rstrip_spaces (x post : str) :
  forallb is_space post = true -> rstrip (x ++ post) = rstrip x.
Proof.
  intros H. unfold rstrip. rewrite rev_app_distr, lstrip_spaces;
    [reflexivity|].
  now rewrite forallb_reversed.
Qed.

Lemma strip_padded (pre line post : str) :
  forallb is_space pre = true -> forallb is_space post = true ->
  strip (pre ++ line ++ post) = strip line.
Proof.
  intros Hpre Hpost. unfold strip.
  rewrite lstrip_spaces by exact Hpre. rewrite lstrip_app.
  destruct (forallb is_space line) eqn:E.
  - now rewrite !lstrip_all_spaces by assumption.
  - now apply rstrip_spaces.
Qed.

(** X7. White space before and after a line does not count: the line is
    skipped, transformed or refused as it is without it, and gives the same
    record. *)
Theorem surrounding_space_ignored (pre line post : str) :
  forallb is_space pre = true -> forallb is_space post = true ->
  strip (pre ++ line ++ post) = strip line /\
  forall env w,
    transform_line env (pre ++ line ++ post) w = transform_line env line w.
Proof.
  intros Hpre Hpost. pose proof (@strip_padded pre line post Hpre Hpost) as H.
  split; [exact H|]. intros env w. unfold transform_line. now rewrite H.
Qed.

(** ** Batches, and notifications with records *)

(** X8. A batch is worth its two halves one after the other: where the
    handler returns on the first half, it does on the whole batch what it
    does on the second half from the world the first left; where it raises
    on the first half, it raises the same on the whole batch, in the same
    world. *)
Theorem batch_splits (env : Env) (a b : list s3_record) (w : world) :
  (forall v w1,
      lambda_handler env {| Records := Some a |} w = (Returned v, w1) ->
      lambda_handler env {| Records := Some (a ++ b) |} w
        = lambda_handler env {| Records := Some b |} w1) /\
  (forall e w1,
      lambda_handler env {| Records := Some a |} w = (Raised e, w1) ->
      lambda_handler env {| Records := Some (a ++ b) |} w = (Raised e, w1)).
Proof.
  rewrite !lambda_handler_batch. cbn [event_records Records].
  rewrite for_records_app.
  destruct (for_records env a w) as [[u|e] w']; split;
    intros ? ? [= ? ?]; subst.
  - now rewrite lambda_handler_batch.
  - reflexivity.
Qed.

(** X9. A notification whose object is read, decompressed and decoded, in
    which every line is blank, malformed or an object and one line at least
    is an object, and whose records encode, makes two calls: the request of
    its object, and one put of the records -- joined by line feeds, each
    with the clock reading of its turn -- into the same bucket under the
    destination key; it ends as that put ends, the clock read once for each
    record. *)
Theorem records_are_put (env : Env) (r : s3_record) (w : world)
    (raw_body raw : bytes) (text : str) (body : bytes) :
  s3_get_object env (calls w) (bucket_name r)
                (unquote_plus (object_key r)) = Returned raw_body ->
  gzip_read env raw_body = Returned raw ->
  decode_utf8 raw = Returned text ->
  only_objects env (splitlines text) ->
  objects_of env (splitlines text) <> [] ->
  encode_utf8
    (join [10%N]
       (stamped env (clock_reads w) (objects_of env (splitlines text))))
    = Returned body ->
  process_record env r w
    = (s3_put_object env
         (calls w ++ [GetObject (bucket_name r) (unquote_plus (object_key r))])
         (bucket_name r) (dest_key_of (unquote_plus (object_key r)))
         body (lit "application/json"),
       {| calls :=
            calls w ++
            [GetObject (bucket_name r) (unquote_plus (object_key r));
             PutObject (bucket_name r)
                       (dest_key_of (unquote_plus (object_key r)))
                       body (lit "application/json")];
          clock_reads :=
            clock_reads w + List.length (objects_of env (splitlines text)) |}).
Proof.
  intros Hg Hz Hd Hobj Hne He.
  rewrite (process_record_transforms r w Hg Hz Hd Hobj Hne He).
  unfold put_object, requested. cbn [calls clock_reads].
  now rewrite <- app_assoc.
Qed.

(** ** Lines written, read again *)

Lemma splitlines_from_line (l : str) :
  existsb is_linebreak l = false ->
  forall cur rest,
    splitlines_from cur (l ++ rest) = splitlines_from (rev l ++ cur) rest.
Proof.
  induction l as [|c l IH]; cbn [existsb app rev]; intros H cur rest.
  - reflexivity.
  - apply orb_false_iff in H as [Hc Hl].
    cbn [splitlines_from]. rewrite Hc, (IH Hl), <- app_assoc. reflexivity.
Qed.

Lemma splitlines_from_feed (cur rest : str) :
  splitlines_from cur (10%N :: rest) = rev cur :: splitlines_from [] rest.
Proof. cbn. now destruct rest. Qed.

Lemma join_cons (sep x y : str) (rest : list str) :
  join sep (x :: y :: rest) = x ++ sep ++ join sep (y :: rest).
Proof. reflexivity. Qed.

Lemma splitlines_join (lines : list str) :
  Forall (fun l => l <> [] /\ existsb is_linebreak l = false) lines ->
  splitlines (join [10%N] lines) = lines.
Proof.
  unfold splitlines.
  induction 1 as [|l lines [Hne Hl] Hrest IH]; [reflexivity|].
  destruct lines as [|l' lines].
  - cbn [join]. rewrite <- (app_nil_r l) at 1.
    rewrite (splitlines_from_line l Hl), app_nil_r.
    cbn. destruct (rev l) eqn:E.
    + apply (f_equal (@rev _)) in E. rewrite rev_involutive in E.
      contradiction.
    + now rewrite <- E, rev_involutive.
  - rewrite join_cons, (splitlines_from_line l Hl), app_nil_r. cbn [app].
    rewrite splitlines_from_feed, rev_involutive. f_equal. exact IH.
Qed.

(** X10. Lines that are not empty and hold no line break, joined by line
    feeds and encoded as the handler writes its records, are read back as
    the handler reads its input: the body decodes, and [splitlines] gives
    the same lines in the same order. *)
Theorem written_lines_read_back (lines : list str) (body : bytes) :
  Forall (fun l => l <> [] /\ existsb is_linebreak l = false) lines ->
  encode_utf8 (join [10%N] lines) = Returned body ->
  exists text, decode_utf8 body = Returned text /\ splitlines text = lines.
Proof.
  intros Hl He. exists (join [10%N] lines). split.
  - now apply decode_encode_utf8.
  - now apply splitlines_join.
Qed.

(** ** What the decoder raises and nothing catches *)

(** A line that ends the loop ends it where it stands: with the records of
    the lines before it gathered, and the clock read for each. *)
Lemma transform_lines_stops (env : Env) (before : list str) (line : str)
    (after : list str) (e : exn) (acc : list str) (w : world) :
  only_objects env before ->
  (forall w0, transform_line env line w0 = (Raised e, w0)) ->
  transform_lines env (before ++ line :: after) acc w
    = (Raised e,
       {| calls := calls w;
          clock_reads :=
            clock_reads w + List.length (objects_of env before) |}).
Proof.
  intros Hb Hl. revert acc w.
  induction Hb as [|l before Hk _ IH]; intros acc w; cbn; unfold bind.
  - rewrite Hl, Nat.add_0_r. now destruct w.
  - destruct Hk as [Hk|[Hk|[d Hk]]].
    + rewrite transform_line_blank, object_of_blank by assumption. apply IH.
    + rewrite transform_line_malformed, object_of_malformed by assumption.
      apply IH.
    + rewrite (transform_line_object w Hk), (object_of_object Hk).
      rewrite IH. cbn. now rewrite Nat.add_succ_r.
Qed.

(** X11. The loop passes over a line, with nothing gathered and nothing
    raised, exactly where the line is blank or [json.loads] raises
    [JSONDecodeError] on it.  Where [json.loads] raises anything else -- a
    [ValueError] on an integer too long, a [RecursionError] on nesting too
    deep -- the line is not skipped: the exception leaves the loop, and the
    handler ends with it, having put nothing for this object and done nothing
    for the notifications after it. *)
Theorem load_error_not_caught (env : Env) :
  (forall line w,
      fst (transform_line env line w) = Returned None <->
      blank line \/ malformed env line) /\
  (forall line e w,
      load_error env line e ->
      transform_line env line w = (Raised e, w)) /\
  (forall before_records r after_records w w1 raw_body raw text
          before line after e,
      for_records env before_records w = (Returned tt, w1) ->
      s3_get_object env (calls w1) (bucket_name r)
                    (unquote_plus (object_key r)) = Returned raw_body ->
      gzip_read env raw_body = Returned raw ->
      decode_utf8 raw = Returned text ->
      splitlines text = before ++ line :: after ->
      only_objects env before ->
      load_error env line e ->
      lambda_handler env
          {| Records := Some (before_records ++ r :: after_records) |} w
        = (Raised e,
           {| calls := calls w1 ++ [GetObject (bucket_name r)
                                              (unquote_plus (object_key r))];
              clock_reads :=
                clock_reads w1 + List.length (objects_of env before) |})).
Proof.
  split; [|split].
  - intros line w. split.
    + destruct (line_cases env line) as [H|[H|[[d H]|[[v [H Hv]]|[e H]]]]].
      * now left.
      * now right.
      * rewrite (transform_line_object w H). discriminate.
      * rewrite (transform_line_other w H Hv). discriminate.
      * rewrite (transform_line_load_error w H). discriminate.
    + intros [H|H].
      * now rewrite transform_line_blank.
      * now rewrite transform_line_malformed.
  - intros line e w H. exact (transform_line_load_error w H).
  - intros before_records r after_records w w1 raw_body raw text
           before line after e Hpre Hg Hz Hd Hsplit Hbefore Hline.
    rewrite lambda_handler_batch. cbn [event_records Records].
    rewrite for_records_app, Hpre. cbn. unfold bind.
    rewrite process_record_stages, Hg, Hz, Hd, Hsplit.
    rewrite (@transform_lines_stops env before line after e []
               (requested r w1) Hbefore
               (fun w0 => transform_line_load_error w0 Hline)).
    reflexivity.
Qed.

(** ** The further properties at work *)

(** X3 at the key [a.gz], in and out of ["raw/"]. *)
Lemma dest_keys_collide_witness :
  startswith (lit "raw/") (lit "a.gz") = false /\
  lit "raw/" ++ lit "a.gz" <> lit "a.gz" /\
  dest_key_of (lit "raw/" ++ lit "a.gz") = dest_key_of (lit "a.gz").
Proof.
  split; [reflexivity|].
  exact (proj1 dest_keys_collide (lit "a.gz") eq_refl).
Defined.

(** X5 at a text with letters of one, two and three octets. *)
Lemma written_text_decodes_witness :
  encode_utf8 (lit "caf" ++ [0xE9; 0x20AC]%N)
    = Returned (map byte_of [0x63; 0x61; 0x66; 0xC3; 0xA9; 0xE2; 0x82; 0xAC]%N)
  /\
  decode_utf8 (map byte_of [0x63; 0x61; 0x66; 0xC3; 0xA9; 0xE2; 0x82; 0xAC]%N)
    = Returned (lit "caf" ++ [0xE9; 0x20AC]%N).
Proof.
  assert (H : encode_utf8 (lit "caf" ++ [0xE9; 0x20AC]%N)
              = Returned (map byte_of
                            [0x63; 0x61; 0x66; 0xC3; 0xA9; 0xE2; 0x82; 0xAC]%N))
    by reflexivity.
  split; [exact H|].
  exact (proj1 written_text_decodes _ _ H).
Defined.

(** X6 at the record of [click_line]. *)
Lemma fields_keep_order_witness :
  parses_to demo click_line (JDict click) /\
  exists d',
    transform_line demo click_line start
      = (Returned (Some (json_dumps demo (JDict d'))), ticked start) /\
    keys d'
      = (let kept := filter (fun k => negb (str_eqb k (lit "user_id")))
                            (keys click) in
         if existsb (fun k => str_eqb k (lit "processed_ts")) kept
         then kept else kept ++ [lit "processed_ts"]) /\
    (NoDup (keys click) -> NoDup (keys d')).
Proof.
  assert (H : parses_to demo click_line (JDict click)) by (split; run).
  split; [exact H|].
  exact (@fields_keep_order demo click_line click start H).
Defined.

(** X7 at a record between a space and a tab, a carriage return and a
    space. *)
Lemma surrounding_space_ignored_witness :
  forallb is_space [32; 9]%N = true /\
  forallb is_space [13; 32]%N = true /\
  strip ([32; 9]%N ++ jtext "{'a':1}" ++ [13; 32]%N) = strip (jtext "{'a':1}")
  /\
  forall env w,
    transform_line env ([32; 9]%N ++ jtext "{'a':1}" ++ [13; 32]%N) w
      = transform_line env (jtext "{'a':1}") w.
Proof.
  split; [reflexivity|]. split; [reflexivity|].
  exact (@surrounding_space_ignored [32; 9]%N (jtext "{'a':1}") [13; 32]%N
           eq_refl eq_refl).
Defined.

(** X8 at a first half that goes through, and at one that does not. *)
Lemma batch_splits_witness :
  lambda_handler demo {| Records := Some [file_gz] |} start
    = (Returned status_ok,
       snd (lambda_handler demo {| Records := Some [file_gz] |} start)) /\
  lambda_handler demo
      {| Records := Some ([file_gz] ++ [notification "other/path/data.gz"]) |}
      start
    = lambda_handler demo
        {| Records := Some [notification "other/path/data.gz"] |}
        (snd (lambda_handler demo {| Records := Some [file_gz] |} start)) /\
  lambda_handler demo {| Records := Some [notification "raw/missing.gz"] |}
                 start
    = (Raised (ServiceError (lit "NoSuchKey")),
       requested (notification "raw/missing.gz") start) /\
  lambda_handler demo
      {| Records := Some ([notification "raw/missing.gz"] ++ [file_gz]) |}
      start
    = (Raised (ServiceError (lit "NoSuchKey")),
       requested (notification "raw/missing.gz") start).
Proof.
  assert (H1 : lambda_handler demo {| Records := Some [file_gz] |} start
               = (Returned status_ok,
                  snd (lambda_handler demo {| Records := Some [file_gz] |}
                                      start))) by run.
  assert (H2 : lambda_handler demo
                 {| Records := Some [notification "raw/missing.gz"] |} start
               = (Raised (ServiceError (lit "NoSuchKey")),
                  requested (notification "raw/missing.gz") start)) by run.
  split; [exact H1|]. split.
  { exact (proj1 (batch_splits demo [file_gz]
                    [notification "other/path/data.gz"] start) _ _ H1). }
  split; [exact H2|].
  exact (proj2 (batch_splits demo [notification "raw/missing.gz"]
                  [file_gz] start) _ _ H2).
Defined.

(** X9 at the object of [file_gz]. *)
Lemma records_are_put_witness :
  s3_get_object demo (calls start) (bucket_name file_gz)
                (unquote_plus (object_key file_gz))
    = Returned (body_of two_clicks) /\
  gzip_read demo (body_of two_clicks) = Returned (body_of two_clicks) /\
  decode_utf8 (body_of two_clicks) = Returned two_clicks /\
  only_objects demo (splitlines two_clicks) /\
  objects_of demo (splitlines two_clicks) <> [] /\
  encode_utf8
    (join [10%N]
       (stamped demo (clock_reads start)
                (objects_of demo (splitlines two_clicks))))
    = Returned (body_of file_json) /\
  process_record demo file_gz start
    = (s3_put_object demo
         (calls start ++
          [GetObject (bucket_name file_gz)
                     (unquote_plus (object_key file_gz))])
         (bucket_name file_gz)
         (dest_key_of (unquote_plus (object_key file_gz)))
         (body_of file_json) (lit "application/json"),
       {| calls :=
            calls start ++
            [GetObject (bucket_name file_gz)
                       (unquote_plus (object_key file_gz));
             PutObject (bucket_name file_gz)
                       (dest_key_of (unquote_plus (object_key file_gz)))
                       (body_of file_json) (lit "application/json")];
          clock_reads :=
            clock_reads start +
            List.length (objects_of demo (splitlines two_clicks)) |}).
Proof.
  assert (H1 : s3_get_object demo (calls start) (bucket_name file_gz)
                 (unquote_plus (object_key file_gz))
               = Returned (body_of two_clicks)) by run.
  assert (H2 : gzip_read demo (body_of two_clicks)
               = Returned (body_of two_clicks)) by run.
  assert (H3 : decode_utf8 (body_of two_clicks) = Returned two_clicks) by run.
  assert (H4 : only_objects demo (splitlines two_clicks)).
  { unfold only_objects.
    replace (splitlines two_clicks)
      with [jtext "{'user_id':'u1','x':1}"; jtext "{'user_id':'u2','x':2}"]
      by run.
    repeat (constructor; [settle_line|]). constructor. }
  assert (H5 : objects_of demo (splitlines two_clicks) <> [])
    by (vm_compute; discriminate).
  assert (H6 : encode_utf8
                 (join [10%N]
                    (stamped demo (clock_reads start)
                             (objects_of demo (splitlines two_clicks))))
               = Returned (body_of file_json)) by run.
  repeat (split; [assumption|]).
  exact (@records_are_put demo file_gz start _ _ _ _ H1 H2 H3 H4 H5 H6).
Defined.

(** X10 at two records. *)
Lemma written_lines_read_back_witness :
  Forall (fun l => l <> [] /\ existsb is_linebreak l = false)
         [jtext "{'a': 1}"; jtext "{'b': 2}"] /\
  encode_utf8 (join [10%N] [jtext "{'a': 1}"; jtext "{'b': 2}"])
    = Returned (body_of (jtext "{'a': 1}" ++ nl ++ jtext "{'b': 2}")) /\
  exists text,
    decode_utf8 (body_of (jtext "{'a': 1}" ++ nl ++ jtext "{'b': 2}"))
      = Returned text /\
    splitlines text = [jtext "{'a': 1}"; jtext "{'b': 2}"].
Proof.
  assert (H1 : Forall (fun l => l <> [] /\ existsb is_linebreak l = false)
                      [jtext "{'a': 1}"; jtext "{'b': 2}"])
    by (repeat constructor; run).
  assert (H2 : encode_utf8 (join [10%N] [jtext "{'a': 1}"; jtext "{'b': 2}"])
               = Returned (body_of (jtext "{'a': 1}" ++ nl ++
                                    jtext "{'b': 2}"))) by run.
  split; [exact H1|]. split; [exact H2|].
  exact (@written_lines_read_back _ _ H1 H2).
Defined.

(** X11 at the text [long_number]: the record before the long number is
    made, the record after it is not, and [file_gz] is not asked for. *)
Lemma load_error_not_caught_witness :
  for_records overlong [] start = (Returned tt, start) /\
  s3_get_object overlong (calls start)
                (bucket_name (notification "raw/long.gz"))
                (unquote_plus (object_key (notification "raw/long.gz")))
    = Returned (body_of long_number) /\
  gzip_read overlong (body_of long_number) = Returned (body_of long_number) /\
  decode_utf8 (body_of long_number) = Returned long_number /\
  splitlines long_number
    = [jtext "{'a':1}"] ++ long_line :: [jtext "{'b':2}"] /\
  only_objects overlong [jtext "{'a':1}"] /\
  load_error overlong long_line ValueError /\
  transform_line overlong long_line start = (Raised ValueError, start) /\
  lambda_handler overlong
      {| Records := Some ([] ++ notification "raw/long.gz" :: [file_gz]) |}
      start
    = (Raised ValueError,
       {| calls :=
            calls start ++
            [GetObject (bucket_name (notification "raw/long.gz"))
                       (unquote_plus
                          (object_key (notification "raw/long.gz")))];
          clock_reads :=
            clock_reads start +
            List.length (objects_of overlong [jtext "{'a':1}"]) |}).
Proof.
  assert (H0 : for_records overlong [] start = (Returned tt, start))
    by reflexivity.
  assert (H1 : s3_get_object overlong (calls start)
                 (bucket_name (notification "raw/long.gz"))
                 (unquote_plus (object_key (notification "raw/long.gz")))
               = Returned (body_of long_number)) by run.
  assert (H2 : gzip_read overlong (body_of long_number)
               = Returned (body_of long_number)) by run.
  assert (H3 : decode_utf8 (body_of long_number) = Returned long_number)
    by run.
  assert (H4 : splitlines long_number
               = [jtext "{'a':1}"] ++ long_line :: [jtext "{'b':2}"]) by run.
  assert (H5 : only_objects overlong [jtext "{'a':1}"]).
  { constructor; [|constructor].
    right; right. exists [(lit "a", JInt 1)]. split; run. }
  assert (H6 : load_error overlong long_line ValueError).
  { split; [run|]. split; [run|discriminate]. }
  repeat (split; [assumption|]).
  split.
  { exact (proj1 (proj2 (load_error_not_caught overlong)) _ _ start H6). }
  exact (proj2 (proj2 (load_error_not_caught overlong)) [] _ [file_gz] start
           start _ _ _ _ _ _ _ H0 H1 H2 H3 H4 H5 H6).
Defined.
